(** * AmneziaWG user/peer lifecycle manager (awg_manager.py)

    A shallow embedding of [AmneziaWGManager]: the user store
    ([self.users]), the IP pool ([self.used_ips]), the persisted users
    file, and the commands sent to the [awg] tool.

    Conventions of the embedding.
    - Python [dict]s are insertion-ordered association lists ([pydict]).
    - The per-user record dicts are objects on a [heap]; [self.users] maps a
      user id to the location of its record, so that a record reachable both
      from the store and from a local variable is one object.
    - Methods are computations in a state-and-exception monad [M].
    - Each run of an [awg] process and each opening of the users file for
      writing is an event appended to the state's [trace]; what the outside
      world answers to the n-th event is given by an [environment], over
      which every theorem is universally quantified.
    - A process that is run always ends with an exit status; a tool that
      cannot be launched at all is outside the model.
    - [ipaddress] objects are kept in parsed form: an address is its
      32-bit integer, a network is its address and prefix length. *)

From Stdlib Require Import Ascii.
From stdpp Require Import gmap strings list pretty sorting.

(** ** Python strings *)

(** ASCII characters for which [str.isspace] holds. *)
Definition py_isspace (c : ascii) : bool :=
  match c with
  | "009" | "010" | "011" | "012" | "013"
  | "028" | "029" | "030" | "031" | " " => true
  | _ => false
  end%char.

Fixpoint lstrip (s : string) : string :=
  match s with
  | String c s' => if py_isspace c then lstrip s' else s
  | EmptyString => EmptyString
  end.

Definition rstrip (s : string) : string := String.rev (lstrip (String.rev s)).

(** [s.strip()] *)
Definition strip (s : string) : string := rstrip (lstrip s).

(** Truthiness of a [str]: the empty string is falsy. *)
Definition str_truthy (s : string) : bool :=
  match s with EmptyString => false | _ => true end.

(** [x or y] for an [Optional[str]] left operand: [None] and [''] are
    falsy. *)
Definition py_or (x : option string) (y : string) : string :=
  match x with
  | Some s => if str_truthy s then s else y
  | None => y
  end.

(** [str(n)] for an [int]. *)
Definition str_int (n : Z) : string := pretty n.

(** ** Python dicts (insertion ordered, string keys) *)

Abbreviation pydict V := (list (string * V)).

Section dict.
Context {V : Type}.

(** [d.get(k)] *)
Fixpoint dict_get (k : string) (d : pydict V) : option V :=
  match d with
  | [] => None
  | (k', v) :: d' => if decide (k = k') then Some v else dict_get k d'
  end.

(** [k in d] *)
Definition dict_in (k : string) (d : pydict V) : bool :=
  match dict_get k d with Some _ => true | None => false end.

(** [d[k] = v]: an existing key keeps its position, a new key goes last. *)
Fixpoint dict_set (k : string) (v : V) (d : pydict V) : pydict V :=
  match d with
  | [] => [(k, v)]
  | (k', v') :: d' =>
      if decide (k = k') then (k, v) :: d' else (k', v') :: dict_set k v d'
  end.

(** [del d[k]] (for a key that is present) *)
Fixpoint dict_del (k : string) (d : pydict V) : pydict V :=
  match d with
  | [] => []
  | (k', v') :: d' =>
      if decide (k = k') then d' else (k', v') :: dict_del k d'
  end.

(** [list(d.keys())] *)
Definition dict_keys (d : pydict V) : list string := d.*1.
End dict.

(** A user record as the program builds it: every value is a [str]. *)
Abbreviation record := (pydict string).

(** ** ipaddress *)

(** [ipaddress.IPv4Network], parsed. *)
Record IPv4Network := {
  network_address : Z;
  prefixlen : Z;
}.

Definition ipv4 (a b c d : Z) : Z :=
  Z.lor (Z.shiftl a 24) (Z.lor (Z.shiftl b 16) (Z.lor (Z.shiftl c 8) d)).

Definition hostmask (net : IPv4Network) : Z :=
  Z.shiftl 1 (32 - prefixlen net) - 1.

Definition broadcast_address (net : IPv4Network) : Z :=
  Z.lor (network_address net) (hostmask net).

(** [net.hosts()]: the addresses strictly between the network and the
    broadcast address; for a /31 both addresses, for a /32 the address. *)
Definition hosts (net : IPv4Network) : list Z :=
  let network := network_address net in
  let broadcast := broadcast_address net in
  if decide (prefixlen net = 31)%Z then seqZ network (broadcast + 1 - network)
  else if decide (prefixlen net = 32)%Z then [network]
  else seqZ (network + 1) (broadcast - (network + 1)).

(** [str(ip)] for an [IPv4Address]: dotted quad of the four bytes. *)
Definition octet (ip : Z) (i : Z) : Z := Z.land (Z.shiftr ip (8 * i)) 255.

Definition IPv4Address_str (ip : Z) : string :=
  str_int (octet ip 3) +:+ "." +:+ str_int (octet ip 2) +:+ "." +:+
  str_int (octet ip 1) +:+ "." +:+ str_int (octet ip 0).

(** ** config.py *)

Record Config := {
  SERVER_PUBLIC_KEY : string;
  SERVER_IP : string;
  SERVER_PORT : Z;
  VPN_NETWORK : IPv4Network;
  VPN_NETWORK_START : Z;
  JC : Z; JMIN : Z; JMAX : Z;
  S1 : Z; S2 : Z; S3 : Z; S4 : Z;
  H1 : string; H2 : string; H3 : string; H4 : string;
  I1 : string; I2 : string; I3 : string; I4 : string; I5 : string;
  INTERFACE_NAME : string;
}.

(** The values [Config] takes when no environment variable is set. *)
Definition default_config : Config := {|
  SERVER_PUBLIC_KEY := "";
  SERVER_IP := "0.0.0.0";
  SERVER_PORT := 51820;
  VPN_NETWORK := {| network_address := ipv4 10 8 0 0; prefixlen := 24 |};
  VPN_NETWORK_START := ipv4 10 8 0 2;
  JC := 6; JMIN := 50; JMAX := 1000;
  S1 := 0; S2 := 0; S3 := 0; S4 := 0;
  H1 := ""; H2 := ""; H3 := ""; H4 := "";
  I1 := ""; I2 := ""; I3 := ""; I4 := ""; I5 := "";
  INTERFACE_NAME := "awg0";
|}.

(** ** Exceptions and results *)

Inductive exn :=
  | ValueError (msg : string)
  | RuntimeError (msg : string)
  | KeyError (key : string)
  | CalledProcessError (returncode : Z) (cmd : list string) (stderr : string)
  | OSError (msg : string).

Inductive res (A : Type) :=
  | Ok (a : A)
  | Raise (e : exn).
Arguments Ok {A} a.
Arguments Raise {A} e.

Definition nl : string := String "010" "".

(** [repr] of a list of plain strings (no quotes or escapes inside). *)
Definition repr_list (l : list string) : string :=
  "[" +:+ String.concat ", " ((fun s => "'" +:+ s +:+ "'") <$> l) +:+ "]".

(** [str(e)] *)
Definition exn_str (e : exn) : string :=
  match e with
  | ValueError msg | RuntimeError msg | OSError msg => msg
  | KeyError key => "'" +:+ key +:+ "'"
  | CalledProcessError rc cmd _ =>
      "Command '" +:+ repr_list cmd +:+ "' returned non-zero exit status " +:+
      str_int rc +:+ "."
  end.

(** ** The manager's state and its outside world *)

(** What the program does to the outside world. *)
Inductive event :=
  | Run (argv : list string) (input : option string)
  | OpenWrite.

(** What a finished process leaves behind ([subprocess.CompletedProcess]). *)
Record completed := {
  returncode : Z;
  stdout : string;
  stderr : string;
}.

(** The outside world's answer to the n-th event: how the process run
    then ends, and whether opening the users file for writing then succeeds
    ([None]) or raises [OSError] with a message. *)
Record environment := {
  process : nat -> completed;
  open_w : nat -> option string;
}.

Record state := {
  heap : list record;                    (* the record dict objects *)
  users : pydict nat;                    (* self.users: id -> record object *)
  used_ips : gset string;                (* self.used_ips *)
  users_file : option (pydict record);   (* parsed content of USERS_FILE *)
  trace : list event;
}.

Definition with_heap (h : list record) (st : state) : state :=
  {| heap := h; users := users st; used_ips := used_ips st;
     users_file := users_file st; trace := trace st |}.
Definition with_users (us : pydict nat) (st : state) : state :=
  {| heap := heap st; users := us; used_ips := used_ips st;
     users_file := users_file st; trace := trace st |}.
Definition with_used_ips (s : gset string) (st : state) : state :=
  {| heap := heap st; users := users st; used_ips := s;
     users_file := users_file st; trace := trace st |}.
Definition with_users_file (f : option (pydict record)) (st : state) : state :=
  {| heap := heap st; users := users st; used_ips := used_ips st;
     users_file := f; trace := trace st |}.
Definition with_trace (t : list event) (st : state) : state :=
  {| heap := heap st; users := users st; used_ips := used_ips st;
     users_file := users_file st; trace := t |}.

(** The record object at a location. *)
Definition deref (h : list record) (l : nat) : record := default [] (h !! l).

(** A dict of record objects with every object read out. *)
Definition store_of (h : list record) (us : pydict nat) : pydict record :=
  (fun p => (p.1, deref h p.2)) <$> us.

(** The store as [json.dump] sees it. *)
Definition store (st : state) : pydict record :=
  store_of (heap st) (users st).

(** The [ip] fields of the records of a store, in order, with
    multiplicity. *)
Definition ips_of (s : pydict record) : list string :=
  omap (fun p => dict_get "ip" p.2) s.

(** [user['ip'] for user in self.users.values()] *)
Definition store_ips (st : state) : list string := ips_of (store st).

(** ** The monad of methods *)

(** A method takes the state and ends with a value or an exception, and
    the state it leaves. *)
Definition M (A : Type) : Type := state -> res A * state.

#[global] Instance M_ret : MRet M := fun A a st => (Ok a, st).
#[global] Instance M_bind : MBind M := fun A B f m st =>
  match m st with
  | (Ok a, st') => f a st'
  | (Raise e, st') => (Raise e, st')
  end.

Definition raise {A} (e : exn) : M A := fun st => (Raise e, st).

(** [try: m except Exception as e: h e] *)
Definition try_except {A} (m : M A) (h : exn -> M A) : M A := fun st =>
  match m st with
  | (Ok a, st') => (Ok a, st')
  | (Raise e, st') => h e st'
  end.

Definition gets {A} (f : state -> A) : M A := fun st => (Ok (f st), st).
Definition modify (f : state -> state) : M unit := fun st => (Ok tt, f st).

(** A dict display: a new object. *)
Definition new_dict (d : record) : M nat := fun st =>
  (Ok (length (heap st)), with_heap (heap st ++ [d]) st).

(** [user[k]] *)
Definition getitem (user : nat) (k : string) : M string := fun st =>
  match dict_get k (deref (heap st) user) with
  | Some v => (Ok v, st)
  | None => (Raise (KeyError k), st)
  end.

(** [user[k] = v] *)
Definition setitem (user : nat) (k v : string) : M unit :=
  modify (fun st => with_heap (alter (dict_set k v) user (heap st)) st).

(** ** subprocess *)

Section manager.
Context (cfg : Config) (env : environment).

(** [subprocess.run(argv, input=..., text=True)]: the process is run as
    the next event. *)
Definition subprocess_run (argv : list string) (input : option string)
  : M completed := fun st =>
  (Ok (process env (length (trace st))),
   with_trace (trace st ++ [Run argv input]) st).

(** [check=True]: a nonzero exit status raises [CalledProcessError]. *)
Definition check (argv : list string) (p : completed) : M completed :=
  if decide (returncode p = 0)%Z then mret p
  else raise (CalledProcessError (returncode p) argv (stderr p)).

(** [subprocess.check_output(argv, input=..., text=True)] *)
Definition check_output (argv : list string) (input : option string)
  : M string :=
  p ← subprocess_run argv input;
  p ← check argv p;
  mret (stdout p).

(** ** AmneziaWGManager *)

Definition interface : string := INTERFACE_NAME cfg.
Definition network : IPv4Network := VPN_NETWORK cfg.

(** [json.load]: every JSON object becomes a new dict; of a repeated key
    the last value stays. *)
Fixpoint json_load (doc : pydict record) (acc : pydict nat)
  : M (pydict nat) :=
  match doc with
  | [] => mret acc
  | (id, d) :: doc' =>
      user ← new_dict d;
      json_load doc' (dict_set id user acc)
  end.

(** The users file parsed, or the empty dict when there is none. *)
Definition _load_users : M (pydict nat) :=
  file ← gets users_file;
  match file with
  | Some doc => json_load doc []
  | None => mret []
  end.

(** [set(user['ip'] for user in self.users.values())] *)
Fixpoint collect_ips (us : pydict nat) : M (gset string) :=
  match us with
  | [] => mret ∅
  | (_, user) :: us' =>
      ip ← getitem user "ip";
      ips ← collect_ips us';
      mret ({[ip]} ∪ ips)
  end.

(** The constructor, from the loading of the users on; [self.config],
    [self.interface] and [self.network] are [cfg], [interface] and
    [network]. *)
Definition __init__ : M unit :=
  us ← _load_users;
  modify (with_users us);;
  us ← gets users;
  ips ← collect_ips us;
  modify (with_used_ips ips).

(** [open(self.users_file, 'w')] then [json.dump(self.users, f)]. *)
Definition _save_users : M unit := fun st =>
  let st' := with_trace (trace st ++ [OpenWrite]) st in
  match open_w env (length (trace st)) with
  | Some msg => (Raise (OSError msg), st')
  | None => (Ok tt, with_users_file (Some (store st)) st')
  end.

(** The [for ip in self.network.hosts()] loop of [_get_next_ip]. *)
Fixpoint _get_next_ip_loop (start_ip : Z) (ips : list Z) : M string :=
  match ips with
  | [] => raise (RuntimeError "No available IPs in the pool")
  | ip :: ips' =>
      if decide (ip < start_ip)%Z then _get_next_ip_loop start_ip ips'
      else
        let ip_str := IPv4Address_str ip in
        used ← gets used_ips;
        if decide (ip_str ∉ used) then mret ip_str
        else _get_next_ip_loop start_ip ips'
  end.

Definition _get_next_ip : M string :=
  let start_ip := VPN_NETWORK_START cfg in
  _get_next_ip_loop start_ip (hosts network).

Definition _generate_keypair : M (string * string) :=
  out ← check_output ["awg"; "genkey"] None;
  let private_key := strip out in
  out ← check_output ["awg"; "pubkey"] (Some private_key);
  let public_key := strip out in
  mret (private_key, public_key).

Definition _run_awg_command (args : list string) : M string :=
  try_except
    (result ← subprocess_run ("awg" :: args) None;
     result ← check ("awg" :: args) result;
     mret (stdout result))
    (fun e =>
       match e with
       | CalledProcessError _ _ e_stderr =>
           raise (RuntimeError ("awg command failed: " +:+ e_stderr))
       | _ => raise e
       end).

Definition _add_peer (public_key allowed_ip : string) : M unit :=
  _run_awg_command
    ["set"; interface; "peer"; public_key;
     "allowed-ips"; allowed_ip +:+ "/32"];;
  mret tt.

Definition _remove_peer (public_key : string) : M unit :=
  _run_awg_command ["set"; interface; "peer"; public_key; "remove"];;
  mret tt.

Definition _generate_client_config (user : nat) : M string :=
  private_key ← getitem user "private_key";
  ip ← getitem user "ip";
  let config :=
    "[Interface]" +:+ nl +:+
    "PrivateKey = " +:+ private_key +:+ nl +:+
    "Address = " +:+ ip +:+ "/32" +:+ nl +:+
    "DNS = 1.1.1.1" +:+ nl +:+
    nl +:+
    "# 混淆参数 (Obfuscation parameters)" +:+ nl +:+
    "# obfJunkMinCnt -> Jc, obfJunkMin -> Jmin, obfJunkVar -> Jmax-Jmin"
      +:+ nl +:+
    "# obfCtlPadLen -> S1, obfTrPadLen -> S4" +:+ nl +:+
    "Jc = " +:+ str_int (JC cfg) +:+ nl +:+
    "Jmin = " +:+ str_int (JMIN cfg) +:+ nl +:+
    "Jmax = " +:+ str_int (JMAX cfg) +:+ nl +:+
    "S1 = " +:+ str_int (S1 cfg) +:+ nl +:+
    "S2 = " +:+ str_int (S2 cfg) +:+ nl +:+
    "S3 = " +:+ str_int (S3 cfg) +:+ nl +:+
    "S4 = " +:+ str_int (S4 cfg) in
  let config := if str_truthy (H1 cfg)
    then config +:+ nl +:+ "H1 = " +:+ H1 cfg else config in
  let config := if str_truthy (H2 cfg)
    then config +:+ nl +:+ "H2 = " +:+ H2 cfg else config in
  let config := if str_truthy (H3 cfg)
    then config +:+ nl +:+ "H3 = " +:+ H3 cfg else config in
  let config := if str_truthy (H4 cfg)
    then config +:+ nl +:+ "H4 = " +:+ H4 cfg else config in
  let config := if str_truthy (I1 cfg)
    then config +:+ nl +:+ "I1 = " +:+ I1 cfg else config in
  let config := if str_truthy (I2 cfg)
    then config +:+ nl +:+ "I2 = " +:+ I2 cfg else config in
  let config := if str_truthy (I3 cfg)
    then config +:+ nl +:+ "I3 = " +:+ I3 cfg else config in
  let config := if str_truthy (I4 cfg)
    then config +:+ nl +:+ "I4 = " +:+ I4 cfg else config in
  let config := if str_truthy (I5 cfg)
    then config +:+ nl +:+ "I5 = " +:+ I5 cfg else config in
  let config := config +:+ nl +:+
    nl +:+
    "[Peer]" +:+ nl +:+
    "PublicKey = " +:+ SERVER_PUBLIC_KEY cfg +:+ nl +:+
    "Endpoint = " +:+ SERVER_IP cfg +:+ ":" +:+ str_int (SERVER_PORT cfg)
      +:+ nl +:+
    "AllowedIPs = 0.0.0.0/0" +:+ nl +:+
    "PersistentKeepalive = 25" +:+ nl in
  mret config.

Definition create_user (user_id : string) (name : option string) : M nat :=
  us ← gets users;
  if dict_in user_id us
  then raise (ValueError ("User " +:+ user_id +:+ " already exists"))
  else
    '(private_key, public_key) ← _generate_keypair;
    ip_address ← _get_next_ip;
    user ← new_dict
      [("id", user_id);
       ("name", py_or name user_id);
       ("private_key", private_key);
       ("public_key", public_key);
       ("ip", ip_address);
       ("allowed_ips", ip_address +:+ "/32")];
    _add_peer public_key ip_address;;
    modify (fun st => with_users (dict_set user_id user (users st)) st);;
    modify (fun st => with_used_ips ({[ip_address]} ∪ used_ips st) st);;
    _save_users;;
    client_config ← _generate_client_config user;
    setitem user "client_config" client_config;;
    mret user.

Definition delete_user (user_id : string) : M bool :=
  us ← gets users;
  match dict_get user_id us with
  | None => raise (ValueError ("User " +:+ user_id +:+ " not found"))
  | Some user =>
      public_key ← getitem user "public_key";
      _remove_peer public_key;;
      ip ← getitem user "ip";
      modify (fun st => with_used_ips (used_ips st ∖ {[ip]}) st);;
      modify (fun st => with_users (dict_del user_id (users st)) st);;
      _save_users;;
      mret true
  end.

(** The result is [None], the stored object itself when it is an empty
    (falsy) dict, or a copy with the client config attached. *)
Definition get_user (user_id : string) : M (option nat) :=
  us ← gets users;
  match dict_get user_id us with
  | None => mret None
  | Some user =>
      d ← gets (fun st => deref (heap st) user);
      match d with
      | [] => mret (Some user)
      | _ :: _ =>
          user ← new_dict d;
          client_config ← _generate_client_config user;
          setitem user "client_config" client_config;;
          mret (Some user)
      end
  end.

(** The comprehension of [list_users]; its dicts are new objects that
    nothing else refers to, and are returned by value. *)
Fixpoint list_users_loop (us : pydict nat) : M (list record) :=
  match us with
  | [] => mret []
  | (user_id, user) :: us' =>
      name ← getitem user "name";
      ip ← getitem user "ip";
      public_key ← getitem user "public_key";
      rest ← list_users_loop us';
      mret ([("id", user_id); ("name", name); ("ip", ip);
             ("public_key", public_key)] :: rest)
  end.

Definition list_users : M (list record) :=
  us ← gets users;
  list_users_loop us.

Inductive status :=
  | StatusRunning (iface : string) (total_users : nat) (available_ips : Z)
                  (details : string)
  | StatusError (iface : string) (error : string).

Definition get_server_status : M status :=
  try_except
    (output ← _run_awg_command ["show"; interface];
     us ← gets users;
     used ← gets used_ips;
     mret (StatusRunning interface (length us)
             (Z.of_nat (length (hosts network)) - Z.of_nat (size used))
             output))
    (fun e => mret (StatusError interface (exn_str e))).
End manager.

(** ** Start-up and runs of operations *)

(** The process before [AmneziaWGManager()] is constructed, with the given
    users file on disk ([None]: no file). *)
Definition boot (file : option (pydict record)) : state :=
  {| heap := []; users := []; used_ips := ∅; users_file := file; trace := [] |}.

(** The state of a manager started with no users file. *)
Definition fresh : state := (__init__ (boot None)).2.

(** The two mutating operations of the manager's interface. *)
Inductive op :=
  | CreateUser (user_id : string) (name : option string)
  | DeleteUser (user_id : string).

Definition run_op (cfg : Config) (env : environment) (o : op) (st : state)
  : state :=
  match o with
  | CreateUser user_id name => (create_user cfg env user_id name st).2
  | DeleteUser user_id => (delete_user cfg env user_id st).2
  end.

(** A sequence of calls, each returning or raising before the next. *)
Definition run_ops (cfg : Config) (env : environment) (ops : list op)
  (st : state) : state :=
  foldl (fun st o => run_op cfg env o st) st ops.

(** The [awg set ... peer ...] commands among the events. *)
Definition is_peer_command (ev : event) : bool :=
  match ev with
  | Run ("awg" :: "set" :: _) _ => true
  | _ => false
  end.

Definition peer_commands (t : list event) : list event :=
  filter (fun ev => is_peer_command ev = true) t.

(** ** Well-formed states *)

(** What holds of any Python state of the manager: [self.users] has each key
    once and every value is an existing object. *)
Definition wf (st : state) : Prop :=
  NoDup (dict_keys (users st)) ∧
  Forall (fun p => p.2 < length (heap st)) (users st).

(** I2: the ips of the stored records are pairwise different and are, as a
    set, the used set. *)
Definition ip_invariant (st : state) : Prop :=
  NoDup (store_ips st) ∧ (∀ ip, ip ∈ store_ips st ↔ ip ∈ used_ips st).

(** I2 together with what it rests on: the state is well formed and every
    stored record has an [ip]. *)
Definition consistent (st : state) : Prop :=
  wf st ∧ Forall (fun p => is_Some (dict_get "ip" p.2)) (store st) ∧ ip_invariant st.

(** An address the scan of [_get_next_ip] passes over. *)
Definition skipped (start_ip : Z) (st : state) (ip : Z) : Prop :=
  (ip < start_ip)%Z ∨ IPv4Address_str ip ∈ used_ips st.

(** The record [create_user] builds. *)
Definition new_record (user_id : string) (name : option string)
  (private_key public_key ip : string) : record :=
  [("id", user_id); ("name", py_or name user_id);
   ("private_key", private_key); ("public_key", public_key);
   ("ip", ip); ("allowed_ips", ip +:+ "/32")].

(** ** The client configuration as the specification words it *)

(** The interface section and the parameters that are always there. *)
Definition interface_and_parameters (cfg : Config) (private_key ip : string)
  : string :=
  "[Interface]" +:+ nl +:+
  "PrivateKey = " +:+ private_key +:+ nl +:+
  "Address = " +:+ ip +:+ "/32" +:+ nl +:+
  "DNS = 1.1.1.1" +:+ nl +:+
  nl +:+
  "# 混淆参数 (Obfuscation parameters)" +:+ nl +:+
  "# obfJunkMinCnt -> Jc, obfJunkMin -> Jmin, obfJunkVar -> Jmax-Jmin"
    +:+ nl +:+
  "# obfCtlPadLen -> S1, obfTrPadLen -> S4" +:+ nl +:+
  "Jc = " +:+ str_int (JC cfg) +:+ nl +:+
  "Jmin = " +:+ str_int (JMIN cfg) +:+ nl +:+
  "Jmax = " +:+ str_int (JMAX cfg) +:+ nl +:+
  "S1 = " +:+ str_int (S1 cfg) +:+ nl +:+
  "S2 = " +:+ str_int (S2 cfg) +:+ nl +:+
  "S3 = " +:+ str_int (S3 cfg) +:+ nl +:+
  "S4 = " +:+ str_int (S4 cfg).

(** The nine optional fields in their fixed order. *)
Definition optional_fields (cfg : Config) : list (string * string) :=
  [("H1", H1 cfg); ("H2", H2 cfg); ("H3", H3 cfg); ("H4", H4 cfg);
   ("I1", I1 cfg); ("I2", I2 cfg); ("I3", I3 cfg); ("I4", I4 cfg);
   ("I5", I5 cfg)].

(** A field is emitted only if its value is not empty. *)
Definition emitted_fields (cfg : Config) : list (string * string) :=
  filter (fun p => p.2 ≠ "") (optional_fields cfg).

Definition field_line (p : string * string) : string :=
  nl +:+ p.1 +:+ " = " +:+ p.2.

Definition peer_section (cfg : Config) : string :=
  nl +:+ nl +:+
  "[Peer]" +:+ nl +:+
  "PublicKey = " +:+ SERVER_PUBLIC_KEY cfg +:+ nl +:+
  "Endpoint = " +:+ SERVER_IP cfg +:+ ":" +:+ str_int (SERVER_PORT cfg)
    +:+ nl +:+
  "AllowedIPs = 0.0.0.0/0" +:+ nl +:+
  "PersistentKeepalive = 25" +:+ nl.

Definition render (cfg : Config) (private_key ip : string) : string :=
  interface_and_parameters cfg private_key ip +:+
  foldr String.app "" (field_line <$> emitted_fields cfg) +:+
  peer_section cfg.

(** The [config += ...] of one optional field. *)
Definition append_if_set (k v : string) (config : string) : string :=
  if str_truthy v then config +:+ nl +:+ k +:+ " = " +:+ v else config.

(** [text.split('\n')] *)
Fixpoint split_lines (cur : string) (s : string) : list string :=
  match s with
  | EmptyString => [String.rev cur]
  | String c s' =>
      if Ascii.eqb c "010" then String.rev cur :: split_lines "" s'
      else split_lines (String c cur) s'
  end.

Definition lines (s : string) : list string := split_lines "" s.

(** The default configuration with [I3] set. *)
Definition with_I3 (v : string) : Config := {|
  SERVER_PUBLIC_KEY := SERVER_PUBLIC_KEY default_config;
  SERVER_IP := SERVER_IP default_config;
  SERVER_PORT := SERVER_PORT default_config;
  VPN_NETWORK := VPN_NETWORK default_config;
  VPN_NETWORK_START := VPN_NETWORK_START default_config;
  JC := 6; JMIN := 50; JMAX := 1000;
  S1 := 0; S2 := 0; S3 := 0; S4 := 0;
  H1 := ""; H2 := ""; H3 := ""; H4 := "";
  I1 := ""; I2 := ""; I3 := v; I4 := ""; I5 := "";
  INTERFACE_NAME := "awg0";
|}.

(** ** Sample worlds and states *)

(** Every process exits 0 and prints a line naming its position among the
    events; the users file can always be written. *)
Definition all_succeed : environment := {|
  process := fun n =>
    {| returncode := 0; stdout := "key" +:+ pretty n +:+ nl; stderr := "" |};
  open_w := fun _ => None;
|}.

(** As [all_succeed], but a process run as the k-th event exits 1. *)
Definition fails_at (k : nat) : environment := {|
  process := fun n =>
    if decide (n = k)
    then {| returncode := 1; stdout := "";
            stderr := "Unable to modify interface: No such device" |}
    else process all_succeed n;
  open_w := fun _ => None;
|}.

(** A manager started with no users file, after [create_user('a')]. *)
Definition with_a : state :=
  run_ops default_config all_succeed [CreateUser "a" None] fresh.

(** The pool 10.8.0.0/30 with start 10.8.0.2: the hosts are 10.8.0.1 and
    10.8.0.2, and only the second can be allocated. *)
Definition small_config : Config := {|
  SERVER_PUBLIC_KEY := SERVER_PUBLIC_KEY default_config;
  SERVER_IP := SERVER_IP default_config;
  SERVER_PORT := SERVER_PORT default_config;
  VPN_NETWORK := {| network_address := ipv4 10 8 0 0; prefixlen := 30 |};
  VPN_NETWORK_START := ipv4 10 8 0 2;
  JC := 6; JMIN := 50; JMAX := 1000;
  S1 := 0; S2 := 0; S3 := 0; S4 := 0;
  H1 := ""; H2 := ""; H3 := ""; H4 := "";
  I1 := ""; I2 := ""; I3 := ""; I4 := ""; I5 := "";
  INTERFACE_NAME := "awg0";
|}.

(** A manager on the small pool after [create_user('a')]. *)
Definition small_full : state :=
  run_ops small_config all_succeed [CreateUser "a" None] fresh.

(** [create_user('u0')], ..., [create_user('u<n-1>')] *)
Definition create_many (n : nat) : list op :=
  (fun i => CreateUser ("u" +:+ pretty i) None) <$> seq 0 n.

(** A manager with the default configuration after 253 creations: every
    address from 10.8.0.2 to 10.8.0.254 is assigned. *)
Definition default_full : state :=
  run_ops default_config all_succeed (create_many 253) fresh.

(** ** Notions for further properties *)

(** What [list_users] shows of a stored user, if the record has the three
    fields it reads. *)
Definition list_entry (p : string * record) : option record :=
  name ← dict_get "name" p.2;
  ip ← dict_get "ip" p.2;
  public_key ← dict_get "public_key" p.2;
  Some [("id", p.1); ("name", name); ("ip", ip); ("public_key", public_key)].

(** The text of a host address of the subnet that is not below the start. *)
Definition allocatable (cfg : Config) (s : string) : Prop :=
  ∃ ip, s = IPv4Address_str ip ∧ ip ∈ hosts (network cfg) ∧
        (VPN_NETWORK_START cfg ≤ ip)%Z.

(** ** awg_api.py

    The request handlers around the manager. A response is the JSON value
    passed to [jsonify] and the status code. A request's JSON body, where
    one is read, is [None] for the JSON [null] and otherwise an object whose
    values are strings; the [X-API-Key] header is [None] when absent.
    Logging is left out. [config.API_KEY] is the parameter [API_KEY]. *)

Set Warnings "-register-all".
Inductive json :=
  | JStr (s : string)
  | JInt (n : Z)
  | JBool (b : bool)
  | JList (l : list json)
  | JObj (fields : list (string * json)).

Definition response : Type := json * Z.

(** [jsonify({'error': msg}), code] *)
Definition error_response (msg : string) (code : Z) : response :=
  (JObj [("error", JStr msg)], code).

(** A record, whose values are all strings, as a JSON object. *)
Definition record_json (d : record) : json :=
  JObj ((fun p => (p.1, JStr p.2)) <$> d).

(** The dict [get_server_status] returns, as a JSON object. *)
Definition status_json (s : status) : json :=
  match s with
  | StatusRunning iface total_users available_ips details =>
      JObj [("interface", JStr iface); ("status", JStr "running");
            ("total_users", JInt (Z.of_nat total_users));
            ("available_ips", JInt available_ips);
            ("details", JStr details)]
  | StatusError iface error =>
      JObj [("interface", JStr iface); ("status", JStr "error");
            ("error", JStr error)]
  end.

Section api.
Context (cfg : Config) (env : environment) (API_KEY : string).

(** The decorator [require_api_key] around a handler. *)
Definition require_api_key (header : option string) (f : M response)
  : M response :=
  if str_truthy API_KEY then
    let api_key := header in
    if match api_key with
       | None => true
       | Some k => negb (str_truthy k) || negb (bool_decide (k = API_KEY))
       end
    then mret (error_response "Invalid or missing API key" 401)
    else f
  else f.

(** [GET /health] *)
Definition health : M response :=
  mret (JObj [("status", JStr "ok")], 200%Z).

(** The [user] object of the create and get responses. *)
Definition user_view (user : nat) : M json :=
  id ← getitem user "id";
  name ← getitem user "name";
  ip ← getitem user "ip";
  public_key ← getitem user "public_key";
  client_config ← getitem user "client_config";
  mret (JObj [("id", JStr id); ("name", JStr name); ("ip", JStr ip);
              ("public_key", JStr public_key);
              ("client_config", JStr client_config)]).

(** [POST /api/users] *)
Definition api_create_user (data : option (pydict string)) : M response :=
  try_except
    (match data with
     | None | Some [] =>                       (* not data *)
         mret (error_response "user_id is required" 400)
     | Some d =>
         if negb (dict_in "user_id" d)
         then mret (error_response "user_id is required" 400)
         else
           match dict_get "user_id" d with
           | None => raise (KeyError "user_id")
           | Some user_id =>
               let name := dict_get "name" d in
               user ← create_user cfg env user_id name;
               view ← user_view user;
               mret (JObj [("success", JBool true); ("user", view)], 201%Z)
           end
     end)
    (fun e =>
       match e with
       | ValueError _ => mret (error_response (exn_str e) 400)
       | _ => mret (error_response "Internal server error" 500)
       end).

(** [GET /api/users/<user_id>] *)
Definition api_get_user (user_id : string) : M response :=
  try_except
    (user ← get_user cfg user_id;
     match user with
     | None => mret (error_response "User not found" 404)
     | Some user =>
         d ← gets (fun st => deref (heap st) user);
         match d with
         | [] => mret (error_response "User not found" 404)   (* not user *)
         | _ :: _ =>
             view ← user_view user;
             mret (JObj [("success", JBool true); ("user", view)], 200%Z)
         end
     end)
    (fun e => mret (error_response "Internal server error" 500)).

(** [DELETE /api/users/<user_id>] *)
Definition api_delete_user (user_id : string) : M response :=
  try_except
    (delete_user cfg env user_id;;
     mret (JObj [("success", JBool true);
                 ("message",
                  JStr ("User " +:+ user_id +:+ " deleted successfully"))],
           200%Z))
    (fun e =>
       match e with
       | ValueError _ => mret (error_response (exn_str e) 404)
       | _ => mret (error_response "Internal server error" 500)
       end).

(** [GET /api/users] *)
Definition api_list_users : M response :=
  try_except
    (us ← list_users;
     mret (JObj [("success", JBool true);
                 ("users", JList (record_json <$> us));
                 ("total", JInt (Z.of_nat (length us)))], 200%Z))
    (fun e => mret (error_response "Internal server error" 500)).

(** [GET /api/server/status] *)
Definition api_server_status : M response :=
  try_except
    (st ← get_server_status cfg env;
     mret (JObj [("success", JBool true); ("status", status_json st)],
           200%Z))
    (fun e => mret (error_response "Internal server error" 500)).
End api.

(** ** More sample worlds and states *)

(** As [all_succeed], but the users file cannot be opened for writing at
    the k-th event. *)
Definition write_fails_at (k : nat) : environment := {|
  process := process all_succeed;
  open_w := fun n => if decide (n = k) then Some "Permission denied" else None;
|}.

(** A manager with users a and b. *)
Definition with_a_b : state :=
  run_ops default_config all_succeed
    [CreateUser "a" None; CreateUser "b" None] fresh.

(** The same after [delete_user('a')]. *)
Definition with_b : state :=
  run_ops default_config all_succeed
    [CreateUser "a" None; CreateUser "b" None; DeleteUser "a"] fresh.

(** ** Facts about dicts *)

Section dict_facts.
Context {V : Type}.
Implicit Types (d : pydict V) (k : string) (v : V).

Lemma dict_get_None d k : dict_get k d = None ↔ k ∉ dict_keys d.
Proof.
  unfold dict_keys. induction d as [|[k' v'] d IH]; simpl.
  - split; [intros _; apply not_elem_of_nil | done].
  - rewrite not_elem_of_cons. case_decide as Hk.
    + split; [done | intros [? _]; done].
    + rewrite IH. split; [done | by intros [_ ?]].
Qed.

Lemma dict_get_Some_split d k v :
  dict_get k d = Some v →
  ∃ d1 d2, d = d1 ++ ((k, v) :: d2) ∧ (k ∉ dict_keys d1) ∧
           dict_del k d = d1 ++ d2.
Proof.
  induction d as [|[k' v'] d IH]; simpl; [done|].
  case_decide as Hk.
  - intros [= ->]. subst k'. exists [], d. split_and!; [done| |done].
    apply not_elem_of_nil.
  - intros (d1 & d2 & -> & Hd1 & Hdel)%IH.
    exists ((k', v') :: d1), d2. split_and!; [done| |by rewrite Hdel].
    unfold dict_keys in *. rewrite fmap_cons, not_elem_of_cons. done.
Qed.

Lemma dict_in_true d k : dict_in k d = true ↔ is_Some (dict_get k d).
Proof. unfold dict_in. destruct (dict_get k d); split; try done; by eauto.
Qed.

Lemma dict_in_false d k : dict_in k d = false ↔ dict_get k d = None.
Proof. unfold dict_in. by destruct (dict_get k d). Qed.

Lemma dict_set_fresh d k v : dict_get k d = None → dict_set k v d = d ++ [(k, v)].
Proof.
  induction d as [|[k' v'] d IH]; simpl; [done|].
  case_decide; [done|]. intros ?. by rewrite IH.
Qed.

Lemma dict_get_set_eq d k v : dict_get k (dict_set k v d) = Some v.
Proof.
  induction d as [|[k' v'] d IH]; simpl.
  - by rewrite decide_True.
  - case_decide; simpl; [by rewrite decide_True | by rewrite decide_False].
Qed.

Lemma dict_get_set_ne d k k' v :
  k ≠ k' → dict_get k' (dict_set k v d) = dict_get k' d.
Proof.
  intros Hne. induction d as [|[k'' v''] d IH]; simpl.
  - by rewrite decide_False.
  - case_decide; simpl; [subst; by rewrite !decide_False|].
    case_decide; [done | apply IH].
Qed.

Lemma dict_keys_set d k v :
  dict_keys (dict_set k v d) =
  if dict_in k d then dict_keys d else dict_keys d ++ [k].
Proof.
  unfold dict_keys, dict_in. induction d as [|[k' v'] d IH]; csimpl; [done|].
  case_decide; csimpl; [by subst|]. rewrite IH. by destruct (dict_get k d).
Qed.

Lemma dict_get_elem_of d k v : dict_get k d = Some v → (k, v) ∈ d.
Proof.
  intros (d1 & d2 & -> & _)%dict_get_Some_split.
  apply elem_of_app; right. apply elem_of_cons; by left.
Qed.

Lemma dict_filter_absent d k :
  k ∉ dict_keys d → filter (fun p => p.1 = k) d = [].
Proof.
  unfold dict_keys. induction d as [|[k' v'] d IH]; csimpl; [done|].
  intros [Hne Hk]%not_elem_of_cons.
  rewrite filter_cons_False by (simpl; congruence). by apply IH.
Qed.

Lemma dict_get_count d k v :
  NoDup (dict_keys d) → dict_get k d = Some v →
  length (filter (fun p => p.1 = k) d) = 1.
Proof.
  unfold dict_keys. induction d as [|[k' v'] d IH]; csimpl; [done|].
  intros [Hk Hnd]%NoDup_cons. case_decide as Heq.
  - subst k'. intros _. rewrite filter_cons_True by done.
    by rewrite dict_filter_absent.
  - intros Hget. rewrite filter_cons_False by (simpl; congruence).
    by apply IH.
Qed.
End dict_facts.

(** ** Facts about the monad and the external calls *)

Lemma bind_run {A B} (m : M A) (f : A → M B) (st : state) :
  (m ≫= f) st =
  match m st with
  | (Ok a, st') => f a st'
  | (Raise e, st') => (Raise e, st')
  end.
Proof. reflexivity. Qed.

Section external.
Context (cfg : Config) (env : environment).

Lemma check_output_run argv input st :
  check_output env argv input st =
  let p := process env (length (trace st)) in
  let st' := with_trace (trace st ++ [Run argv input]) st in
  if decide (returncode p = 0)%Z then (Ok (stdout p), st')
  else (Raise (CalledProcessError (returncode p) argv (stderr p)), st').
Proof.
  unfold check_output, check. rewrite bind_run. simpl.
  by case_decide.
Qed.

Lemma _run_awg_command_run args st :
  _run_awg_command env args st =
  let p := process env (length (trace st)) in
  let st' := with_trace (trace st ++ [Run ("awg" :: args) None]) st in
  if decide (returncode p = 0)%Z then (Ok (stdout p), st')
  else (Raise (RuntimeError ("awg command failed: " +:+ stderr p)), st').
Proof.
  unfold _run_awg_command, try_except, check. rewrite bind_run. simpl.
  by case_decide.
Qed.
End external.

(** ** Facts about the pool *)

Lemma seq_sorted (a n : nat) : StronglySorted lt (seq a n).
Proof.
  revert a. induction n as [|n IH]; intros a; simpl; constructor; [done|].
  apply Forall_forall. intros x [? ?]%elem_of_seq. lia.
Qed.

Lemma seqZ_sorted (m n : Z) : StronglySorted Z.lt (seqZ m n).
Proof.
  unfold seqZ. eapply StronglySorted_fmap; [|apply seq_sorted].
  intros x y ?. simpl. lia.
Qed.

(** [hosts()] yields the addresses in ascending order. *)
Lemma hosts_sorted (net : IPv4Network) : StronglySorted Z.lt (hosts net).
Proof.
  unfold hosts. repeat case_decide; try apply seqZ_sorted.
  repeat constructor.
Qed.

Lemma _get_next_ip_loop_run (start_ip : Z) (ips : list Z) (st : state) :
  (∃ pre ip post,
      ips = pre ++ ip :: post ∧ Forall (skipped start_ip st) pre ∧
      ¬ skipped start_ip st ip ∧
      _get_next_ip_loop start_ip ips st = (Ok (IPv4Address_str ip), st))
  ∨ (Forall (skipped start_ip st) ips ∧
     _get_next_ip_loop start_ip ips st =
       (Raise (RuntimeError "No available IPs in the pool"), st)).
Proof.
  induction ips as [|ip ips IH]; simpl.
  - right. by split.
  - destruct (decide (ip < start_ip)%Z) as [Hlt|Hge].
    { destruct IH as [(pre & ip' & post & -> & Hpre & Hip & Hrun)|[Hall Hrun]].
      - left. exists (ip :: pre), ip', post. split_and!; try done.
        constructor; [by left | done].
      - right. split; [|done]. constructor; [by left | done]. }
    rewrite bind_run. simpl.
    destruct (decide (IPv4Address_str ip ∉ used_ips st)) as [Hfree|Hused].
    { left. exists [], ip, ips. split_and!; try done.
      intros [?|?]; [lia | done]. }
    apply dec_stable in Hused.
    destruct IH as [(pre & ip' & post & -> & Hpre & Hip & Hrun)|[Hall Hrun]].
    + left. exists (ip :: pre), ip', post. split_and!; try done.
      constructor; [by right | done].
    + right. split; [|done]. constructor; [by right | done].
Qed.

(** The allocation reads the pool and changes nothing. *)
Lemma _get_next_ip_state cfg st : (_get_next_ip cfg st).2 = st.
Proof.
  unfold _get_next_ip.
  destruct (_get_next_ip_loop_run (VPN_NETWORK_START cfg)
              (hosts (network cfg)) st)
    as [(? & ? & ? & _ & _ & _ & ->)|[_ ->]]; done.
Qed.

(** It depends on the used set only. *)
Lemma _get_next_ip_loop_used start_ip ips st st' :
  used_ips st = used_ips st' →
  (_get_next_ip_loop start_ip ips st).1 = (_get_next_ip_loop start_ip ips st').1.
Proof.
  intros Hused. induction ips as [|ip ips IH]; simpl; [done|].
  case_decide; [done|]. rewrite !bind_run. simpl. rewrite <-Hused.
  by case_decide.
Qed.

Lemma _get_next_ip_used cfg st st' :
  used_ips st = used_ips st' →
  (_get_next_ip cfg st).1 = (_get_next_ip cfg st').1.
Proof. apply _get_next_ip_loop_used. Qed.

Lemma _get_next_ip_eta cfg st : _get_next_ip cfg st = ((_get_next_ip cfg st).1, st).
Proof.
  rewrite <-(_get_next_ip_state cfg st) at 3. by destruct (_get_next_ip cfg st).
Qed.

Lemma _generate_keypair_run env st :
  _generate_keypair env st =
  let n := length (trace st) in
  let genkey := Run ["awg"; "genkey"] None in
  let private_key := strip (stdout (process env n)) in
  let pubkey := Run ["awg"; "pubkey"] (Some private_key) in
  if decide (returncode (process env n) = 0)%Z then
    if decide (returncode (process env (n + 1)) = 0)%Z then
      (Ok (private_key, strip (stdout (process env (n + 1)))),
       with_trace (trace st ++ [genkey; pubkey]) st)
    else
      (Raise (CalledProcessError (returncode (process env (n + 1)))
                ["awg"; "pubkey"] (stderr (process env (n + 1)))),
       with_trace (trace st ++ [genkey; pubkey]) st)
  else
    (Raise (CalledProcessError (returncode (process env n))
              ["awg"; "genkey"] (stderr (process env n))),
     with_trace (trace st ++ [genkey]) st).
Proof.
  unfold _generate_keypair. rewrite bind_run, check_output_run. simpl.
  case_decide; [|done].
  rewrite bind_run, check_output_run. simpl. rewrite length_app. simpl.
  unfold with_trace; simpl. rewrite <-!app_assoc. simpl.
  by case_decide.
Qed.

Lemma dict_get_store st k :
  dict_get k (store st) = deref (heap st) <$> dict_get k (users st).
Proof.
  unfold store, store_of.
  induction (users st) as [|[k' l] us IH]; csimpl; [done|].
  by case_decide.
Qed.

Lemma _get_next_ip_Ok cfg st s :
  (_get_next_ip cfg st).1 = Ok s →
  ∃ ip, s = IPv4Address_str ip ∧ ip ∈ hosts (network cfg) ∧
        (VPN_NETWORK_START cfg ≤ ip)%Z ∧ (s ∉ used_ips st) ∧
        ∀ ip', ip' ∈ hosts (network cfg) → (VPN_NETWORK_START cfg ≤ ip')%Z →
               IPv4Address_str ip' ∉ used_ips st → (ip ≤ ip')%Z.
Proof.
  unfold _get_next_ip.
  destruct (_get_next_ip_loop_run (VPN_NETWORK_START cfg)
              (hosts (network cfg)) st)
    as [(pre & ip & post & Hsplit & Hpre & Hip & ->)|[_ ->]]; [|done].
  simpl. intros [= <-]. exists ip.
  assert (Hsorted := hosts_sorted (network cfg)). rewrite Hsplit in *.
  unfold skipped in Hip. split_and!; [done| |lia|tauto|].
  { apply elem_of_app; right; apply elem_of_cons; by left. }
  intros ip' [Hin|Hin]%elem_of_app Hstart Hfree.
  - rewrite Forall_forall in Hpre. destruct (Hpre _ Hin); [lia|done].
  - apply elem_of_cons in Hin as [->|Hin]; [lia|].
    apply StronglySorted_app_1_r in Hsorted.
    apply StronglySorted_inv in Hsorted as [_ Hall].
    rewrite Forall_forall in Hall. specialize (Hall _ Hin). lia.
Qed.

(** ** Failure paths of [create_user] *)

(** C1. In a state where the id is not stored, when key generation and the
    allocation succeed (the allocation yielding [ip]) and the [awg set ...
    peer ... allowed-ips] command, the third process run, exits nonzero:
    [create_user] raises the [RuntimeError] of the failed command, [ip] is
    not in the used set and is what the next allocation yields, and neither
    the store nor the users file has changed, so no record for the id
    exists. *)
Theorem create_user_peer_registration_fails cfg env st user_id name ip :
  dict_get user_id (users st) = None →
  let n := length (trace st) in
  returncode (process env n) = 0%Z →
  returncode (process env (n + 1)) = 0%Z →
  (_get_next_ip cfg st).1 = Ok ip →
  returncode (process env (n + 2)) ≠ 0%Z →
  let r := create_user cfg env user_id name st in
  r.1 = Raise (RuntimeError
                 ("awg command failed: " +:+ stderr (process env (n + 2)))) ∧
  trace r.2 = trace st ++
    [Run ["awg"; "genkey"] None;
     Run ["awg"; "pubkey"] (Some (strip (stdout (process env n))));
     Run ["awg"; "set"; interface cfg; "peer";
          strip (stdout (process env (n + 1)));
          "allowed-ips"; ip +:+ "/32"] None] ∧
  (ip ∉ used_ips r.2) ∧
  (_get_next_ip cfg r.2).1 = Ok ip ∧
  dict_get user_id (store r.2) = None ∧
  used_ips r.2 = used_ips st ∧ users r.2 = users st ∧
  users_file r.2 = users_file st.
Proof.
  intros Habsent n Hgen Hpub Hip Hadd r. subst r.
  unfold create_user. rewrite bind_run. simpl.
  rewrite (proj2 (dict_in_false _ _) Habsent).
  rewrite bind_run, _generate_keypair_run. simpl. fold n.
  rewrite !decide_True by done.
  rewrite bind_run, _get_next_ip_eta.
  rewrite (_get_next_ip_used cfg _ st) by done. rewrite Hip.
  rewrite bind_run. simpl.
  unfold _add_peer. rewrite !bind_run, _run_awg_command_run. simpl.
  rewrite length_app. simpl. fold n.
  rewrite decide_False by done. simpl.
  apply _get_next_ip_Ok in Hip as Hfree.
  destruct Hfree as (? & _ & _ & _ & Hfree & _).
  split_and!; try done.
  - by rewrite <-app_assoc.
  - rewrite <-Hip. by apply _get_next_ip_used.
  - rewrite dict_get_store. simpl. by rewrite Habsent.
Qed.

Lemma create_user_peer_registration_fails_witness :
  let r := create_user default_config (fails_at 2) "a" None fresh in
  r.1 = Raise (RuntimeError
    "awg command failed: Unable to modify interface: No such device") ∧
  ("10.8.0.2" ∉ used_ips r.2) ∧
  (_get_next_ip default_config r.2).1 = Ok "10.8.0.2" ∧
  dict_get "a" (store r.2) = None.
Proof.
  destruct (create_user_peer_registration_fails
              default_config (fails_at 2) fresh "a" None "10.8.0.2")
    as (Hr & _ & Hfree & Hnext & Hstore & _);
    [reflexivity | reflexivity | reflexivity | vm_compute; reflexivity
    | vm_compute; discriminate |].
  cbv zeta. split_and!; [exact Hr | exact Hfree | exact Hnext | exact Hstore].
Defined.

Lemma store_keys st : dict_keys (store st) = dict_keys (users st).
Proof.
  unfold store, store_of, dict_keys. rewrite <-list_fmap_compose.
  by apply list_fmap_ext.
Qed.

Lemma getitem_Some st user k v :
  dict_get k (deref (heap st) user) = Some v → getitem user k st = (Ok v, st).
Proof. intros Hget. unfold getitem. by rewrite Hget. Qed.

Lemma getitem_None st user k :
  dict_get k (deref (heap st) user) = None →
  getitem user k st = (Raise (KeyError k), st).
Proof. intros Hget. unfold getitem. by rewrite Hget. Qed.

(** C4. In a state where the id is stored, [create_user] raises the
    [ValueError] of a duplicate and does nothing else: the state, trace
    included, is the one before; the store holds one record for the id,
    the object that was there, with the ip it had; the used set is as it
    was. *)
Theorem create_user_duplicate cfg env st user_id name user :
  NoDup (dict_keys (users st)) →
  dict_get user_id (users st) = Some user →
  let r := create_user cfg env user_id name st in
  r.1 = Raise (ValueError ("User " +:+ user_id +:+ " already exists")) ∧
  r.2 = st ∧
  length (filter (fun p => p.1 = user_id) (store r.2)) = 1 ∧
  dict_get user_id (store r.2) = Some (deref (heap st) user) ∧
  dict_get "ip" <$> dict_get user_id (store r.2) =
    dict_get "ip" <$> dict_get user_id (store st) ∧
  used_ips r.2 = used_ips st.
Proof.
  intros Hnd Hget r. subst r. unfold create_user. rewrite bind_run. simpl.
  rewrite (proj2 (dict_in_true _ _)) by (by rewrite Hget). simpl.
  split_and!; try done.
  - eapply dict_get_count.
    + by rewrite store_keys.
    + rewrite dict_get_store, Hget. done.
  - by rewrite dict_get_store, Hget.
Qed.

Lemma create_user_duplicate_witness :
  let r := create_user default_config all_succeed "a" (Some "again") with_a in
  r.1 = Raise (ValueError "User a already exists") ∧ r.2 = with_a ∧
  length (filter (fun p => p.1 = "a") (store r.2)) = 1.
Proof.
  destruct (create_user_duplicate
              default_config all_succeed with_a "a" (Some "again") 0)
    as (Hr & Hst & Hone & _);
    [apply (bool_decide_unpack _); vm_compute; exact I
    | vm_compute; reflexivity |].
  cbv zeta. split_and!; [exact Hr | exact Hst | exact Hone].
Defined.

(** ** Failure paths of [delete_user] *)

(** C3. For an id that is not stored, [delete_user] raises the [ValueError]
    of a missing user and leaves the state as it was. For a stored id, when
    the [awg set ... peer ... remove] command exits nonzero, it raises the
    [RuntimeError] of the failed command; the heap, the store, the used set
    and the users file are as before, only the command is added to the
    trace. *)
Theorem delete_user_failures cfg env st user_id :
  (dict_get user_id (users st) = None →
   delete_user cfg env user_id st =
     (Raise (ValueError ("User " +:+ user_id +:+ " not found")), st)) ∧
  (∀ user public_key,
     dict_get user_id (users st) = Some user →
     dict_get "public_key" (deref (heap st) user) = Some public_key →
     returncode (process env (length (trace st))) ≠ 0%Z →
     let r := delete_user cfg env user_id st in
     r.1 = Raise (RuntimeError
                    ("awg command failed: " +:+
                     stderr (process env (length (trace st))))) ∧
     trace r.2 = trace st ++
       [Run ["awg"; "set"; interface cfg; "peer"; public_key; "remove"] None] ∧
     heap r.2 = heap st ∧ users r.2 = users st ∧ store r.2 = store st ∧
     used_ips r.2 = used_ips st ∧ users_file r.2 = users_file st).
Proof.
  split.
  - intros Habsent. unfold delete_user. rewrite bind_run. simpl.
    by rewrite Habsent.
  - intros user public_key Hget Hpk Hfail r. subst r.
    unfold delete_user. rewrite bind_run. simpl. rewrite Hget.
    rewrite bind_run, (getitem_Some _ _ _ _ Hpk).
    unfold _remove_peer. rewrite !bind_run, _run_awg_command_run. simpl.
    rewrite decide_False by done. simpl. done.
Qed.

Lemma delete_user_failures_witness :
  delete_user default_config (fails_at 4) "b" with_a =
    (Raise (ValueError "User b not found"), with_a) ∧
  let r := delete_user default_config (fails_at 4) "a" with_a in
  r.1 = Raise (RuntimeError
    "awg command failed: Unable to modify interface: No such device") ∧
  store r.2 = store with_a ∧ used_ips r.2 = used_ips with_a.
Proof.
  destruct (delete_user_failures default_config (fails_at 4) with_a "b")
    as [Habsent _].
  destruct (delete_user_failures default_config (fails_at 4) with_a "a")
    as [_ Hfail].
  destruct (Hfail 0 "key1") as (Hr & _ & _ & _ & Hstore & Hused & _);
    [vm_compute; reflexivity | vm_compute; reflexivity
    | vm_compute; discriminate |].
  split; [apply Habsent; vm_compute; reflexivity |].
  cbv zeta. split_and!; [exact Hr | exact Hstore | exact Hused].
Defined.

(** ** The runs of [create_user] and [delete_user] *)

Lemma deref_new (h : list record) (d : record) : deref (h ++ [d]) (length h) = d.
Proof. unfold deref. by rewrite list_lookup_middle. Qed.

Lemma deref_old (h h' : list record) (l : nat) :
  l < length h → deref (h ++ h') l = deref h l.
Proof. intros Hl. unfold deref. by rewrite lookup_app_l. Qed.

Lemma alter_new (f : record → record) (h : list record) (d : record) :
  alter f (length h) (h ++ [d]) = h ++ [f d].
Proof.
  rewrite <-(Nat.add_0_r (length h)) at 1. by rewrite alter_app_r.
Qed.

Lemma getitem2_run {A} (f : string → string → A) st user k1 k2 v1 v2 :
  dict_get k1 (deref (heap st) user) = Some v1 →
  dict_get k2 (deref (heap st) user) = Some v2 →
  (a ← getitem user k1; b ← getitem user k2; mret (f a b)) st
  = (Ok (f v1 v2), st).
Proof.
  intros H1 H2. rewrite bind_run, (getitem_Some _ _ _ _ H1).
  rewrite bind_run, (getitem_Some _ _ _ _ H2). done.
Qed.

Lemma _generate_client_config_run cfg st user private_key ip :
  dict_get "private_key" (deref (heap st) user) = Some private_key →
  dict_get "ip" (deref (heap st) user) = Some ip →
  ∃ text, _generate_client_config cfg user st = (Ok text, st).
Proof.
  intros Hpk Hip. eexists. unfold _generate_client_config.
  apply (getitem2_run _ st user "private_key" "ip" private_key ip Hpk Hip).
Qed.

Lemma _save_users_run env st :
  _save_users env st =
  match open_w env (length (trace st)) with
  | Some msg => (Raise (OSError msg), with_trace (trace st ++ [OpenWrite]) st)
  | None =>
      (Ok tt, with_users_file (Some (store st))
                (with_trace (trace st ++ [OpenWrite]) st))
  end.
Proof. reflexivity. Qed.

Local Ltac aborted :=
  left; simpl;
  split_and!;
    [done | by eexists | done | done | done
    | first [exists []; by rewrite app_nil_r | by eexists]
    | eexists; split; [by rewrite <-?app_assoc | simpl; lia]].

(** Every way a call of [create_user] can end: the id was there and
    nothing happened; the call was given up before anything was stored; or
    the record was stored and the ip marked used, after which the users file
    was written or could not be opened. *)
Lemma create_user_cases cfg env st user_id name :
  let n := length (trace st) in
  let r := create_user cfg env user_id name st in
  (is_Some (dict_get user_id (users st)) ∧
   r = (Raise (ValueError ("User " +:+ user_id +:+ " already exists")), st))
  ∨ (dict_get user_id (users st) = None ∧ (∃ e, r.1 = Raise e) ∧
     users r.2 = users st ∧ used_ips r.2 = used_ips st ∧
     users_file r.2 = users_file st ∧ (∃ h, heap r.2 = heap st ++ h) ∧
     ∃ evs, trace r.2 = trace st ++ evs ∧ length evs ≤ 3)
  ∨ (dict_get user_id (users st) = None ∧
     ∃ ip, (_get_next_ip cfg st).1 = Ok ip ∧
       let user := length (heap st) in
       let rec := new_record user_id name (strip (stdout (process env n)))
                    (strip (stdout (process env (n + 1)))) ip in
       let committed :=
         with_heap (heap st ++ [rec])
           (with_users (dict_set user_id user (users st)) st) in
       users r.2 = dict_set user_id user (users st) ∧
       used_ips r.2 = {[ip]} ∪ used_ips st ∧
       length (trace r.2) = n + 4 ∧
       ((∃ msg, open_w env (n + 3) = Some msg ∧ r.1 = Raise (OSError msg) ∧
                heap r.2 = heap st ++ [rec] ∧
                users_file r.2 = users_file st)
        ∨ (open_w env (n + 3) = None ∧ r.1 = Ok user ∧
           (∃ text, heap r.2 =
                      heap st ++ [dict_set "client_config" text rec]) ∧
           users_file r.2 = Some (store committed)))).
Proof.
  intros n r. subst r. unfold create_user. rewrite bind_run. simpl.
  destruct (dict_in user_id (users st)) eqn:Hin.
  { left. split; [by apply dict_in_true | done]. }
  apply dict_in_false in Hin. right.
  rewrite bind_run, _generate_keypair_run. simpl. fold n.
  destruct (decide (returncode (process env n) = 0%Z)) as [Hgen|Hgen];
    [|by aborted].
  destruct (decide (returncode (process env (n + 1)) = 0%Z)) as [Hpub|Hpub];
    [|by aborted].
  rewrite bind_run, _get_next_ip_eta.
  rewrite (_get_next_ip_used cfg _ st) by done.
  destruct (_get_next_ip cfg st).1 as [ip|e] eqn:Hip;
    [|by aborted].
  rewrite bind_run. simpl.
  unfold _add_peer. rewrite !bind_run, _run_awg_command_run. simpl.
  rewrite length_app. simpl. fold n.
  destruct (decide (returncode (process env (n + 2)) = 0%Z)) as [Hadd|Hadd];
    [|by aborted].
  simpl. right. split; [done|]. exists ip. split; [done|].
  repeat (rewrite bind_run; simpl).
  rewrite _save_users_run. simpl. rewrite !length_app. simpl.
  fold n. replace (n + 2 + 1) with (n + 3) by lia.
  destruct (open_w env (n + 3)) as [msg|] eqn:Hopen; simpl.
  { split_and!; try done; [rewrite !length_app; simpl; lia|].
    left. by exists msg. }
  rewrite bind_run.
  edestruct (_generate_client_config_run cfg) as [text ->].
  1,2: simpl; rewrite deref_new; reflexivity.
  simpl. rewrite alter_new.
  split_and!; try done; [rewrite !length_app; simpl; lia|].
  right. split_and!; try done. by exists text.
Qed.

(** Every way a call of [delete_user] can end: given up with nothing
    changed, or the peer removed, the ip released and the record dropped,
    after which the users file was written or could not be opened. *)
Lemma delete_user_cases cfg env st user_id :
  let r := delete_user cfg env user_id st in
  ((∃ e, r.1 = Raise e) ∧ heap r.2 = heap st ∧ users r.2 = users st ∧
   used_ips r.2 = used_ips st ∧ users_file r.2 = users_file st ∧
   ∃ evs, trace r.2 = trace st ++ evs)
  ∨ (∃ user public_key ip,
       dict_get user_id (users st) = Some user ∧
       dict_get "public_key" (deref (heap st) user) = Some public_key ∧
       dict_get "ip" (deref (heap st) user) = Some ip ∧
       heap r.2 = heap st ∧
       users r.2 = dict_del user_id (users st) ∧
       used_ips r.2 = used_ips st ∖ {[ip]} ∧
       trace r.2 = trace st ++
         [Run ["awg"; "set"; interface cfg; "peer"; public_key; "remove"] None;
          OpenWrite] ∧
       ((∃ msg, r.1 = Raise (OSError msg) ∧ users_file r.2 = users_file st)
        ∨ (r.1 = Ok true ∧ users_file r.2 = Some (store r.2)))).
Proof.
  intros r. subst r. unfold delete_user. rewrite bind_run. simpl.
  destruct (dict_get user_id (users st)) as [user|] eqn:Hget;
    [|left; simpl; split_and!; eauto; exists []; by rewrite app_nil_r].
  rewrite bind_run.
  destruct (dict_get "public_key" (deref (heap st) user))
    as [public_key|] eqn:Hpk.
  2:{ rewrite (getitem_None _ _ _ Hpk). left; simpl; split_and!; eauto.
      exists []; by rewrite app_nil_r. }
  rewrite (getitem_Some _ _ _ _ Hpk).
  unfold _remove_peer. rewrite !bind_run, _run_awg_command_run. simpl.
  case_decide as Hrm; simpl; [|left; simpl; split_and!; eauto].
  rewrite bind_run.
  destruct (dict_get "ip" (deref (heap st) user)) as [ip|] eqn:Hip.
  2:{ rewrite getitem_None by done. left; simpl; split_and!; eauto. }
  rewrite getitem_Some with (v := ip) by done.
  repeat (rewrite bind_run; simpl). rewrite _save_users_run. simpl.
  right. exists user, public_key, ip.
  destruct (open_w env _) as [msg|]; simpl;
    (split_and!; try done; [by rewrite <-app_assoc|]).
  - left. by exists msg.
  - by right.
Qed.

(** ** I2 is an invariant *)

Lemma store_of_app h us1 us2 :
  store_of h (us1 ++ us2) = store_of h us1 ++ store_of h us2.
Proof. unfold store_of. apply fmap_app. Qed.

Lemma store_of_grow h h' us :
  Forall (fun p => p.2 < length h) us → store_of (h ++ h') us = store_of h us.
Proof.
  intros Hall. unfold store_of. apply Forall_fmap_ext.
  eapply Forall_impl; [exact Hall|]. intros [k l] Hl. simpl in *.
  by rewrite deref_old.
Qed.

Lemma store_of_cons h k l us :
  store_of h ((k, l) :: us) = (k, deref h l) :: store_of h us.
Proof. reflexivity. Qed.

Lemma ips_of_cons_Some k d s ip :
  dict_get "ip" d = Some ip → ips_of ((k, d) :: s) = ip :: ips_of s.
Proof. intros Hd. unfold ips_of. simpl. by rewrite Hd. Qed.

Lemma ips_of_app s1 s2 : ips_of (s1 ++ s2) = ips_of s1 ++ ips_of s2.
Proof. apply omap_app. Qed.

Lemma consistent_frame st st' :
  consistent st → users st' = users st → used_ips st' = used_ips st →
  (∃ h, heap st' = heap st ++ h) → consistent st'.
Proof.
  intros ([Hkeys Hlocs] & Hip & Hnd & Hused) Hus Hu [h Hh].
  assert (store st' = store st) as Hstore.
  { unfold store. rewrite Hus, Hh. by apply store_of_grow. }
  unfold consistent, ip_invariant, wf, store_ips. rewrite Hstore, Hus, Hu, Hh.
  split_and!; try done.
  eapply Forall_impl; [exact Hlocs|]. intros p ?. simpl in *. rewrite length_app. lia.
Qed.

Lemma consistent_commit st st' user_id rec ip :
  consistent st → dict_get user_id (users st) = None →
  users st' = dict_set user_id (length (heap st)) (users st) →
  heap st' = heap st ++ [rec] → dict_get "ip" rec = Some ip →
  ip ∉ used_ips st → used_ips st' = {[ip]} ∪ used_ips st →
  consistent st'.
Proof.
  intros ([Hkeys Hlocs] & Hip & Hnd & Hused) Habsent Hus Hh Hrec Hfree Hu.
  rewrite dict_set_fresh in Hus by done.
  assert (store st' = store st ++ [(user_id, rec)]) as Hstore.
  { unfold store. rewrite Hus, Hh, store_of_app, store_of_grow by done.
    unfold store_of at 2. simpl. by rewrite deref_new. }
  assert (store_ips st' = store_ips st ++ [ip]) as Hips.
  { unfold store_ips. rewrite Hstore, ips_of_app. unfold ips_of at 2.
    simpl. by rewrite Hrec. }
  unfold consistent, ip_invariant, wf. rewrite Hips, Hstore, Hus, Hu, Hh.
  split_and!.
  - unfold dict_keys in *. rewrite fmap_app. simpl.
    apply NoDup_app. split_and!; [done| |apply NoDup_singleton].
    intros k Hk ->%list_elem_of_singleton. by apply dict_get_None in Habsent.
  - apply Forall_app. split.
    + eapply Forall_impl; [exact Hlocs|]. intros p ?. simpl in *. rewrite length_app. lia.
    + constructor; [|done]. simpl. rewrite length_app. simpl. lia.
  - apply Forall_app. split; [done|]. constructor; [|done]. simpl. by eexists.
  - apply NoDup_app. split_and!; [done| |apply NoDup_singleton].
    intros x Hx ->%list_elem_of_singleton. by apply Hfree, Hused.
  - intros x. rewrite elem_of_app, list_elem_of_singleton, elem_of_union,
      elem_of_singleton, Hused. tauto.
Qed.

Lemma consistent_delete st st' user_id user ip :
  consistent st → dict_get user_id (users st) = Some user →
  dict_get "ip" (deref (heap st) user) = Some ip →
  heap st' = heap st → users st' = dict_del user_id (users st) →
  used_ips st' = used_ips st ∖ {[ip]} →
  consistent st'.
Proof.
  intros ([Hkeys Hlocs] & Hip & Hnd & Hused) Hget Hrec Hh Hus Hu.
  apply dict_get_Some_split in Hget as (us1 & us2 & Hsplit & _ & Hdel).
  rewrite Hdel in Hus. clear Hdel.
  unfold consistent, ip_invariant, wf, store_ips, store in *.
  rewrite Hus, Hh, Hu. rewrite Hsplit in *. clear Hsplit Hus Hh Hu.
  rewrite store_of_app, ips_of_app in *.
  rewrite store_of_cons in Hip, Hnd, Hused.
  rewrite (ips_of_cons_Some _ _ _ _ Hrec) in Hnd, Hused.
  unfold dict_keys in *. rewrite fmap_app in *. rewrite fmap_cons in Hkeys.
  apply NoDup_app in Hkeys as (Hk1 & Hk12 & [_ Hk2]%NoDup_cons).
  apply Forall_app in Hlocs as [Hl1 [_ Hl2]%Forall_cons].
  apply Forall_app in Hip as [Hip1 [_ Hip2]%Forall_cons].
  apply NoDup_app in Hnd as (Hn1 & Hn12 & [Hn Hn2]%NoDup_cons).
  split_and!.
  - apply NoDup_app. split_and!; [done| |done].
    intros k Hk Hk'. apply (Hk12 k Hk). by right.
  - by apply Forall_app.
  - by apply Forall_app.
  - apply NoDup_app. split_and!; [done| |done].
    intros k Hk Hk'. apply (Hn12 k Hk). by right.
  - intros x. rewrite elem_of_difference, <-Hused, !elem_of_app, elem_of_cons.
    rewrite not_elem_of_singleton. split.
    + intros [Hx|Hx]; (split; [tauto|]); intros ->; [|done].
      apply (Hn12 ip Hx). by left.
    + tauto.
Qed.

Lemma create_user_consistent cfg env st user_id name :
  consistent st → consistent (create_user cfg env user_id name st).2.
Proof.
  intros Hst.
  destruct (create_user_cases cfg env st user_id name)
    as [[_ ->]|[(_ & _ & Hus & Hu & _ & Hh & _)
               |(Habsent & ip & Hip & Hus & Hu & _ & Hend)]]; [done|..].
  - by eapply consistent_frame.
  - apply _get_next_ip_Ok in Hip as (_ & _ & _ & _ & Hfree & _).
    destruct Hend as [(msg & _ & _ & Hh & _)|(_ & _ & [text Hh] & _)];
      eapply consistent_commit; try done.
Qed.

Lemma delete_user_consistent cfg env st user_id :
  consistent st → consistent (delete_user cfg env user_id st).2.
Proof.
  intros Hst.
  destruct (delete_user_cases cfg env st user_id)
    as [(_ & Hh & Hus & Hu & _)
       |(user & pk & ip & Hget & _ & Hip & Hh & Hus & Hu & _)].
  - eapply consistent_frame; try done. exists []. by rewrite app_nil_r.
  - by eapply consistent_delete.
Qed.

Lemma run_ops_consistent cfg env ops st :
  consistent st → consistent (run_ops cfg env ops st).
Proof.
  revert st. induction ops as [|o ops IH]; intros st Hst; simpl; [done|].
  apply IH. destruct o; simpl.
  - by apply create_user_consistent.
  - by apply delete_user_consistent.
Qed.

Lemma fresh_consistent : consistent fresh.
Proof.
  unfold consistent, ip_invariant, wf. cbn.
  split_and!; try by constructor.
  intros ip. split; [by intros ?%elem_of_nil | by intros ?%elem_of_empty].
Qed.

Lemma consistent_length st :
  consistent st → length (store_ips st) = length (users st).
Proof.
  intros (_ & Hip & _). unfold store_ips. 
  replace (length (users st)) with (length (store st))
    by (unfold store, store_of; apply length_fmap).
  induction Hip as [|[k d] s [ip Hd] _ IH]; [done|].
  simpl in Hd. rewrite (ips_of_cons_Some _ _ _ _ Hd). simpl. by rewrite IH.
Qed.

(** C2. After any sequence of [create_user] and [delete_user] calls,
    whatever the outside world answered to each of them, the ips of the
    stored records are pairwise different and are, as a set, the used set,
    and every stored record has an ip. This holds from the state of a
    manager started with no users file, and from any consistent state. *)
Theorem ip_invariant_after_any_operations cfg env (ops : list op) :
  (let st := run_ops cfg env ops fresh in
   ip_invariant st ∧ length (store_ips st) = length (users st)) ∧
  (∀ st0, consistent st0 →
     let st := run_ops cfg env ops st0 in
     ip_invariant st ∧ length (store_ips st) = length (users st)).
Proof.
  assert (∀ st0, consistent st0 →
     let st := run_ops cfg env ops st0 in
     ip_invariant st ∧ length (store_ips st) = length (users st)) as Hgen.
  { intros st0 Hst0 st.
    assert (consistent st) as Hst by by apply run_ops_consistent.
    split; [apply Hst | by apply consistent_length]. }
  split; [|done]. apply Hgen, fresh_consistent.
Qed.

Lemma ip_invariant_after_any_operations_witness :
  let st := run_ops default_config all_succeed
              [CreateUser "a" None; CreateUser "b" None; DeleteUser "a";
               CreateUser "c" None] fresh in
  ip_invariant st ∧ store_ips st = ["10.8.0.3"; "10.8.0.2"].
Proof.
  destruct (ip_invariant_after_any_operations default_config all_succeed
              [CreateUser "a" None; CreateUser "b" None; DeleteUser "a";
               CreateUser "c" None]) as [_ Hgen].
  destruct (Hgen fresh) as [Hinv _].
  { unfold consistent, ip_invariant, wf. cbn.
    split_and!; try by constructor.
    intros ip. split; [by intros ?%elem_of_nil | by intros ?%elem_of_empty]. }
  split; [exact Hinv | vm_compute; reflexivity].
Defined.

(** ** The pool *)

Lemma _get_next_ip_exhausted cfg st :
  (∀ ip, ip ∈ hosts (network cfg) → (VPN_NETWORK_START cfg ≤ ip)%Z →
         IPv4Address_str ip ∈ used_ips st) →
  _get_next_ip cfg st =
    (Raise (RuntimeError "No available IPs in the pool"), st).
Proof.
  intros Hall. unfold _get_next_ip.
  destruct (_get_next_ip_loop_run (VPN_NETWORK_START cfg)
              (hosts (network cfg)) st)
    as [(pre & ip & post & Hsplit & _ & Hip & _)|[_ ->]]; [|done].
  exfalso. apply Hip. unfold skipped.
  destruct (decide (ip < VPN_NETWORK_START cfg)%Z); [by left|right].
  apply Hall; [|lia]. rewrite Hsplit.
  apply elem_of_app; right; apply elem_of_cons; by left.
Qed.

Lemma _get_next_ip_free cfg st ip :
  ip ∈ hosts (network cfg) → (VPN_NETWORK_START cfg ≤ ip)%Z →
  IPv4Address_str ip ∉ used_ips st →
  ∃ s, _get_next_ip cfg st = (Ok s, st).
Proof.
  intros Hin Hstart Hfree. unfold _get_next_ip.
  destruct (_get_next_ip_loop_run (VPN_NETWORK_START cfg)
              (hosts (network cfg)) st)
    as [(pre & ip' & post & _ & _ & _ & ->)|[Hall _]]; [by eexists|].
  exfalso. rewrite Forall_forall in Hall.
  destruct (Hall ip Hin) as [?|?]; [lia|done].
Qed.

Lemma create_user_exhausted cfg env st user_id name :
  (∀ ip, ip ∈ hosts (network cfg) → (VPN_NETWORK_START cfg ≤ ip)%Z →
         IPv4Address_str ip ∈ used_ips st) →
  let n := length (trace st) in
  let r := create_user cfg env user_id name st in
  (∃ e, r.1 = Raise e) ∧
  heap r.2 = heap st ∧ users r.2 = users st ∧ used_ips r.2 = used_ips st ∧
  users_file r.2 = users_file st ∧
  peer_commands (trace r.2) = peer_commands (trace st) ∧
  (dict_get user_id (users st) = None →
   returncode (process env n) = 0%Z →
   returncode (process env (n + 1)) = 0%Z →
   r.1 = Raise (RuntimeError "No available IPs in the pool")).
Proof.
  intros Hall n r. subst r. unfold create_user. rewrite bind_run. simpl.
  destruct (dict_in user_id (users st)) eqn:Hin.
  { apply dict_in_true in Hin as [? Hin]. simpl.
    split_and!; eauto. intros ?; congruence. }
  rewrite bind_run, _generate_keypair_run. simpl. fold n.
  unfold peer_commands.
  destruct (decide (returncode (process env n) = 0%Z)) as [Hgen|Hgen].
  2:{ simpl. rewrite filter_app. simpl. rewrite app_nil_r.
      split_and!; eauto. done. }
  destruct (decide (returncode (process env (n + 1)) = 0%Z)) as [Hpub|Hpub].
  2:{ simpl. rewrite filter_app. simpl. rewrite app_nil_r.
      split_and!; eauto. done. }
  rewrite bind_run, _get_next_ip_exhausted by done. simpl.
  rewrite filter_app. simpl. rewrite app_nil_r. split_and!; eauto.
Qed.

(** C5. [_get_next_ip] yields the text of the lowest host address of the
    subnet that is not below the start address and whose text is not in the
    used set, and it yields one whenever there is one. When every host
    address from the start on is in use it raises the [RuntimeError] of an
    empty pool, and [create_user] then raises, stores no record, marks no
    ip, writes no file and sends no peer command. With the default
    configuration (10.8.0.0/24, start 10.8.0.2), three creations get
    10.8.0.2, 10.8.0.3 and 10.8.0.4, and after creating and deleting a user
    the next one created gets 10.8.0.2 again. *)
Theorem _get_next_ip_lowest_free cfg st :
  (∀ s, (_get_next_ip cfg st).1 = Ok s →
     ∃ ip, s = IPv4Address_str ip ∧ ip ∈ hosts (network cfg) ∧
       (VPN_NETWORK_START cfg ≤ ip)%Z ∧ (s ∉ used_ips st) ∧
       ∀ ip', ip' ∈ hosts (network cfg) → (VPN_NETWORK_START cfg ≤ ip')%Z →
              IPv4Address_str ip' ∉ used_ips st → (ip ≤ ip')%Z) ∧
  (∀ ip, ip ∈ hosts (network cfg) → (VPN_NETWORK_START cfg ≤ ip)%Z →
     IPv4Address_str ip ∉ used_ips st →
     ∃ s, _get_next_ip cfg st = (Ok s, st)) ∧
  (Forall (fun ip => (VPN_NETWORK_START cfg ≤ ip)%Z →
                     IPv4Address_str ip ∈ used_ips st) (hosts (network cfg)) →
     _get_next_ip cfg st =
       (Raise (RuntimeError "No available IPs in the pool"), st) ∧
     ∀ env user_id name,
       let n := length (trace st) in
       let r := create_user cfg env user_id name st in
       (∃ e, r.1 = Raise e) ∧
       heap r.2 = heap st ∧ users r.2 = users st ∧
       used_ips r.2 = used_ips st ∧ users_file r.2 = users_file st ∧
       peer_commands (trace r.2) = peer_commands (trace st) ∧
       (dict_get user_id (users st) = None →
        returncode (process env n) = 0%Z →
        returncode (process env (n + 1)) = 0%Z →
        r.1 = Raise (RuntimeError "No available IPs in the pool"))) ∧
  store_ips (run_ops default_config all_succeed
               [CreateUser "a" None; CreateUser "b" None; CreateUser "c" None]
               fresh) = ["10.8.0.2"; "10.8.0.3"; "10.8.0.4"] ∧
  ips_of (store (run_ops default_config all_succeed
                   [CreateUser "a" None] fresh)) = ["10.8.0.2"] ∧
  dict_get "ip" <$>
    dict_get "b" (store (run_ops default_config all_succeed
                           [CreateUser "a" None; DeleteUser "a";
                            CreateUser "b" None] fresh)) =
    Some (Some "10.8.0.2").
Proof.
  split_and!.
  - apply _get_next_ip_Ok.
  - apply _get_next_ip_free.
  - intros Hall. rewrite Forall_forall in Hall.
    assert (∀ ip, ip ∈ hosts (network cfg) → (VPN_NETWORK_START cfg ≤ ip)%Z →
                  IPv4Address_str ip ∈ used_ips st) as Hall' by eauto.
    split; [by apply _get_next_ip_exhausted|].
    intros env user_id name. by apply create_user_exhausted.
  - vm_compute. reflexivity.
  - vm_compute. reflexivity.
  - vm_compute. reflexivity.
Qed.

Lemma _get_next_ip_lowest_free_witness :
  (∃ ip, "10.8.0.3" = IPv4Address_str ip ∧
         ip ∈ hosts (network default_config)) ∧
  (∃ s, _get_next_ip default_config with_a = (Ok s, with_a)) ∧
  _get_next_ip small_config small_full =
    (Raise (RuntimeError "No available IPs in the pool"), small_full) ∧
  (create_user small_config all_succeed "b" None small_full).1 =
    Raise (RuntimeError "No available IPs in the pool").
Proof.
  destruct (_get_next_ip_lowest_free default_config with_a)
    as (Hlow & Hsome & _).
  destruct (Hlow "10.8.0.3") as (ip & Hip & Hin & _);
    [vm_compute; reflexivity|].
  destruct (_get_next_ip_lowest_free small_config small_full)
    as (_ & _ & Hfull & _).
  destruct Hfull as [Hraise Hcreate];
    [apply (bool_decide_unpack _); vm_compute; exact I|].
  destruct (Hcreate all_succeed "b" None) as (_ & _ & _ & _ & _ & _ & Hpool).
  split_and!.
  - exists ip. split; [exact Hip | exact Hin].
  - apply (Hsome (ipv4 10 8 0 9));
      [apply (bool_decide_unpack _); vm_compute; exact I
      | vm_compute; discriminate
      | apply (bool_decide_unpack _); vm_compute; exact I].
  - exact Hraise.
  - apply Hpool; vm_compute; reflexivity.
Defined.

(** ** The client configuration *)

Lemma string_app_assoc (a b c : string) : (a +:+ b) +:+ c = a +:+ (b +:+ c).
Proof. induction a as [|x a IH]; simpl; [done|]. unfold String.app in *. simpl. by rewrite IH. Qed.

Lemma string_app_nil_r (a : string) : a +:+ "" = a.
Proof. induction a as [|x a IH]; [done|]. unfold String.app in *. simpl. by rewrite IH. Qed.

Lemma append_if_set_lines k v config fields :
  append_if_set k v config +:+
    foldr String.app "" (field_line <$> filter (fun p => p.2 ≠ "") fields) =
  config +:+
    foldr String.app ""
      (field_line <$> filter (fun p => p.2 ≠ "") ((k, v) :: fields)).
Proof.
  unfold append_if_set. destruct v as [|c v]; cbn [str_truthy].
  - by rewrite filter_cons_False by (simpl; tauto).
  - rewrite filter_cons_True by done. rewrite fmap_cons.
    cbn [foldr]. unfold field_line at 2. cbn [fst snd].
    by rewrite !string_app_assoc.
Qed.

Lemma lines_nil (config : string) :
  config = config +:+
    foldr String.app "" (field_line <$> filter (fun p => p.2 ≠ "") []).
Proof. simpl. by rewrite string_app_nil_r. Qed.

Lemma render_eq cfg private_key ip :
  (let config := interface_and_parameters cfg private_key ip in
   let config := append_if_set "H1" (H1 cfg) config in
   let config := append_if_set "H2" (H2 cfg) config in
   let config := append_if_set "H3" (H3 cfg) config in
   let config := append_if_set "H4" (H4 cfg) config in
   let config := append_if_set "I1" (I1 cfg) config in
   let config := append_if_set "I2" (I2 cfg) config in
   let config := append_if_set "I3" (I3 cfg) config in
   let config := append_if_set "I4" (I4 cfg) config in
   let config := append_if_set "I5" (I5 cfg) config in
   config +:+ peer_section cfg) = render cfg private_key ip.
Proof.
  cbv zeta. unfold render, emitted_fields, optional_fields.
  rewrite <-(string_app_assoc _ _ (peer_section cfg)). f_equal.
  rewrite (lines_nil (append_if_set "I5" (I5 cfg) _)).
  by rewrite !append_if_set_lines.
Qed.

Lemma _generate_client_config_render cfg st user private_key ip :
  dict_get "private_key" (deref (heap st) user) = Some private_key →
  dict_get "ip" (deref (heap st) user) = Some ip →
  _generate_client_config cfg user st = (Ok (render cfg private_key ip), st).
Proof.
  intros Hpk Hip. rewrite <-render_eq. unfold _generate_client_config.
  rewrite (getitem2_run _ st user "private_key" "ip" private_key ip Hpk Hip).
  reflexivity.
Qed.

(** C7. For a record with a private key and an ip, the client configuration
    is the interface section and the parameters up to S4, then one line
    [NAME = value] for each of H1..H4, I1..I5 whose configured value is not
    empty, in that order, then the peer section with [AllowedIPs =
    0.0.0.0/0] and [PersistentKeepalive = 25]. With H1 unset and I3 set to
    abcd the emitted fields are those of H2..I2 that are set, then I3, then
    those of I4, I5 that are set; with nothing else set the text has no H1
    line and one line [I3 = abcd], which follows the S4 line. *)
Theorem client_config_optional_fields cfg st user private_key ip :
  dict_get "private_key" (deref (heap st) user) = Some private_key →
  dict_get "ip" (deref (heap st) user) = Some ip →
  _generate_client_config cfg user st =
    (Ok (interface_and_parameters cfg private_key ip +:+
         foldr String.app "" (field_line <$> emitted_fields cfg) +:+
         peer_section cfg), st) ∧
  (∀ p, p ∈ emitted_fields cfg ↔ p.2 ≠ "" ∧ p ∈ optional_fields cfg) ∧
  emitted_fields cfg `sublist_of` optional_fields cfg ∧
  (H1 cfg = "" → I3 cfg = "abcd" →
   emitted_fields cfg =
     filter (fun p => p.2 ≠ "")
       [("H2", H2 cfg); ("H3", H3 cfg); ("H4", H4 cfg);
        ("I1", I1 cfg); ("I2", I2 cfg)] ++
     ("I3", "abcd") ::
     filter (fun p => p.2 ≠ "") [("I4", I4 cfg); ("I5", I5 cfg)]) ∧
  (∃ text,
     _generate_client_config (with_I3 "abcd") 0 with_a = (Ok text, with_a) ∧
     lines text =
       ["[Interface]"; "PrivateKey = key0"; "Address = 10.8.0.2/32";
        "DNS = 1.1.1.1"; ""; "# 混淆参数 (Obfuscation parameters)";
        "# obfJunkMinCnt -> Jc, obfJunkMin -> Jmin, obfJunkVar -> Jmax-Jmin";
        "# obfCtlPadLen -> S1, obfTrPadLen -> S4"; "Jc = 6"; "Jmin = 50";
        "Jmax = 1000"; "S1 = 0"; "S2 = 0"; "S3 = 0"; "S4 = 0"; "I3 = abcd";
        ""; "[Peer]"; "PublicKey = "; "Endpoint = 0.0.0.0:51820";
        "AllowedIPs = 0.0.0.0/0"; "PersistentKeepalive = 25"; ""] ∧
     Forall (fun l => String.prefix "H1" l = false) (lines text) ∧
     length (filter (fun l => l = "I3 = abcd") (lines text)) = 1 ∧
     lines text !! 14 = Some "S4 = 0" ∧
     lines text !! 15 = Some "I3 = abcd").
Proof.
  intros Hpk Hip. split_and!.
  - by apply _generate_client_config_render.
  - intros p. unfold emitted_fields. by rewrite list_elem_of_filter.
  - apply sublist_filter.
  - intros HH1 HI3. unfold emitted_fields, optional_fields.
    rewrite HH1, HI3.
    rewrite filter_cons_False by (simpl; tauto).
    change [("H2", H2 cfg); ("H3", H3 cfg); ("H4", H4 cfg); ("I1", I1 cfg);
            ("I2", I2 cfg); ("I3", "abcd"); ("I4", I4 cfg); ("I5", I5 cfg)]
      with ([("H2", H2 cfg); ("H3", H3 cfg); ("H4", H4 cfg); ("I1", I1 cfg);
             ("I2", I2 cfg)] ++
            ("I3", "abcd") :: [("I4", I4 cfg); ("I5", I5 cfg)]).
    rewrite filter_app. f_equal.
  - eexists. split; [vm_compute; reflexivity|].
    split; [vm_compute; reflexivity|].
    split; [apply (bool_decide_unpack _); vm_compute; exact I|].
    split; [vm_compute; reflexivity|].
    split; vm_compute; reflexivity.
Qed.

Lemma client_config_optional_fields_witness :
  _generate_client_config (with_I3 "abcd") 0 with_a =
    (Ok (interface_and_parameters (with_I3 "abcd") "key0" "10.8.0.2" +:+
         nl +:+ "I3 = abcd" +:+ peer_section (with_I3 "abcd")), with_a) ∧
  emitted_fields (with_I3 "abcd") = [("I3", "abcd")].
Proof.
  destruct (client_config_optional_fields
              (with_I3 "abcd") with_a 0 "key0" "10.8.0.2")
    as (Hrun & _ & _ & Hfields & _);
    [vm_compute; reflexivity | vm_compute; reflexivity |].
  split; [exact Hrun | apply Hfields; reflexivity].
Defined.

(** ** The read operations *)

Lemma getitem_bind_None {A} (f : string → M A) st user k :
  dict_get k (deref (heap st) user) = None →
  (getitem user k ≫= f) st = (Raise (KeyError k), st).
Proof. intros Hk. by rewrite bind_run, (getitem_None _ _ _ Hk). Qed.

Lemma getitem2_bind_None {A} (f : string → string → M A) st user k1 k2 v1 :
  dict_get k1 (deref (heap st) user) = Some v1 →
  dict_get k2 (deref (heap st) user) = None →
  (a ← getitem user k1; getitem user k2 ≫= f a) st = (Raise (KeyError k2), st).
Proof.
  intros H1 H2. rewrite bind_run, (getitem_Some _ _ _ _ H1).
  by apply getitem_bind_None.
Qed.

(** The three ways [_generate_client_config] ends; it changes nothing. *)
Lemma _generate_client_config_cases cfg st user :
  match dict_get "private_key" (deref (heap st) user),
        dict_get "ip" (deref (heap st) user) with
  | Some private_key, Some ip =>
      _generate_client_config cfg user st =
        (Ok (render cfg private_key ip), st)
  | Some _, None =>
      _generate_client_config cfg user st = (Raise (KeyError "ip"), st)
  | None, _ =>
      _generate_client_config cfg user st =
        (Raise (KeyError "private_key"), st)
  end.
Proof.
  destruct (dict_get "private_key" _) as [private_key|] eqn:Hpk.
  - destruct (dict_get "ip" _) as [ip|] eqn:Hip.
    + by apply _generate_client_config_render.
    + unfold _generate_client_config.
      by apply (getitem2_bind_None _ st user "private_key" "ip" private_key).
  - unfold _generate_client_config. by apply getitem_bind_None.
Qed.

Lemma getitem_state user k st : (getitem user k st).2 = st.
Proof. unfold getitem. by destruct (dict_get k _). Qed.

Lemma list_users_loop_state us st : (list_users_loop us st).2 = st.
Proof.
  induction us as [|[user_id user] us IH]; simpl; [done|].
  rewrite bind_run.
  destruct (getitem user "name" st) as [[name|e] st1] eqn:H1;
    pose proof (getitem_state user "name" st) as E1; rewrite H1 in E1;
    simpl in E1; subst st1; [|done].
  rewrite bind_run.
  destruct (getitem user "ip" st) as [[ip|e] st1] eqn:H2;
    pose proof (getitem_state user "ip" st) as E2; rewrite H2 in E2;
    simpl in E2; subst st1; [|done].
  rewrite bind_run.
  destruct (getitem user "public_key" st) as [[pk|e] st1] eqn:H3;
    pose proof (getitem_state user "public_key" st) as E3; rewrite H3 in E3;
    simpl in E3; subst st1; [|done].
  rewrite bind_run.
  destruct (list_users_loop us st) as [[rest|e] st1]; simpl in *; by subst.
Qed.

Lemma store_grow st st' :
  wf st → users st' = users st → (∃ h, heap st' = heap st ++ h) →
  store st' = store st.
Proof.
  intros [_ Hlocs] Hus [h Hh]. unfold store. rewrite Hus, Hh.
  by apply store_of_grow.
Qed.

Lemma get_user_cases cfg st user_id :
  let r := get_user cfg user_id st in
  users r.2 = users st ∧ used_ips r.2 = used_ips st ∧
  users_file r.2 = users_file st ∧ trace r.2 = trace st ∧
  ((dict_get user_id (users st) = None ∧ r = (Ok None, st))
   ∨ (∃ user, dict_get user_id (users st) = Some user ∧
        deref (heap st) user = [] ∧ r = (Ok (Some user), st))
   ∨ (∃ user, dict_get user_id (users st) = Some user ∧
        deref (heap st) user ≠ [] ∧
        ((∃ e, r.1 = Raise e ∧
               (dict_get "private_key" (deref (heap st) user) = None ∨
                dict_get "ip" (deref (heap st) user) = None) ∧
               heap r.2 = heap st ++ [deref (heap st) user])
         ∨ (∃ private_key ip,
              dict_get "private_key" (deref (heap st) user) = Some private_key ∧
              dict_get "ip" (deref (heap st) user) = Some ip ∧
              r.1 = Ok (Some (length (heap st))) ∧
              heap r.2 = heap st ++
                [dict_set "client_config" (render cfg private_key ip)
                   (deref (heap st) user)])))).
Proof.
  intros r. subst r. unfold get_user. rewrite bind_run. simpl.
  destruct (dict_get user_id (users st)) as [user|] eqn:Hget;
    [|split_and!; try done; by left].
  rewrite bind_run. simpl.
  destruct (deref (heap st) user) as [|kv d] eqn:Hd.
  { split_and!; try done. right; left. by exists user. }
  rewrite bind_run. simpl. rewrite bind_run.
  set (st1 := with_heap (heap st ++ [kv :: d]) st).
  assert (deref (heap st1) (length (heap st)) = kv :: d) as Hnew
    by (subst st1; simpl; by rewrite deref_new).
  pose proof (_generate_client_config_cases cfg st1 (length (heap st)))
    as Hcfg. rewrite Hnew in Hcfg.
  destruct (dict_get "private_key" (kv :: d)) as [private_key|] eqn:Hpk.
  2:{ rewrite Hcfg.
      split_and!; try done. right; right. exists user. rewrite !Hd.
      split_and!; try done. left. eexists. split_and!; [done|by left|done]. }
  destruct (dict_get "ip" (kv :: d)) as [ip|] eqn:Hip.
  2:{ rewrite Hcfg.
      split_and!; try done. right; right. exists user. rewrite !Hd.
      split_and!; try done. left. eexists. split_and!; [done|by right|done]. }
  rewrite Hcfg.
  repeat (rewrite bind_run; simpl). rewrite alter_new.
  split_and!; try done. right; right. exists user. rewrite !Hd.
  split_and!; try done. right. by exists private_key, ip.
Qed.

Lemma get_server_status_run cfg env st :
  get_server_status cfg env st =
  let p := process env (length (trace st)) in
  let st' :=
    with_trace (trace st ++ [Run ["awg"; "show"; interface cfg] None]) st in
  if decide (returncode p = 0)%Z
  then (Ok (StatusRunning (interface cfg) (length (users st))
              (Z.of_nat (length (hosts (network cfg))) -
               Z.of_nat (size (used_ips st)))
              (stdout p)), st')
  else (Ok (StatusError (interface cfg)
              ("awg command failed: " +:+ stderr p)), st').
Proof.
  unfold get_server_status, try_except.
  rewrite bind_run, _run_awg_command_run. simpl. by case_decide.
Qed.

(** C8. In a well-formed state, [get_user], [list_users] and
    [get_server_status] leave the store, the used set and the users file as
    they were. [get_user] of a stored record with a private key and an ip
    returns a new object, the copy with the client configuration attached;
    the stored object is as before. [list_users] leaves the whole state
    unchanged; [get_server_status] only adds its command to the trace. *)
Theorem reads_leave_store_and_pool cfg env st :
  wf st →
  (∀ user_id,
     let r := get_user cfg user_id st in
     store r.2 = store st ∧ users r.2 = users st ∧
     used_ips r.2 = used_ips st ∧ users_file r.2 = users_file st ∧
     ∀ user private_key ip,
       dict_get user_id (users st) = Some user →
       dict_get "private_key" (deref (heap st) user) = Some private_key →
       dict_get "ip" (deref (heap st) user) = Some ip →
       ∃ copy, r.1 = Ok (Some copy) ∧ copy ≠ user ∧
         deref (heap r.2) copy =
           dict_set "client_config" (render cfg private_key ip)
             (deref (heap st) user) ∧
         deref (heap r.2) user = deref (heap st) user) ∧
  (list_users st).2 = st ∧
  (let r := get_server_status cfg env st in
   heap r.2 = heap st ∧ store r.2 = store st ∧ users r.2 = users st ∧
   used_ips r.2 = used_ips st ∧ users_file r.2 = users_file st).
Proof.
  intros Hwf. split_and!.
  - intros user_id r.
    destruct (get_user_cases cfg st user_id)
      as (Hus & Hu & Hf & _ & Hcases). fold r in Hus, Hu, Hf, Hcases.
    assert (∃ h, heap r.2 = heap st ++ h) as Hh.
    { destruct Hcases as [[_ ->]|[(? & _ & _ & ->)|(user & _ & _ & Hc)]];
        [exists []; by rewrite app_nil_r..|].
      destruct Hc as [(? & _ & _ & ->)|(? & ? & _ & _ & _ & ->)]; by eexists. }
    split_and!; try done; [by apply store_grow|].
    intros user private_key ip Hget Hpk Hip.
    assert (user < length (heap st)) as Hlt.
    { destruct Hwf as [_ Hlocs]. rewrite Forall_forall in Hlocs.
      by apply (Hlocs (user_id, user)), dict_get_elem_of. }
    destruct Hcases as [[? _]|[(user' & Hget' & Hd & _)|(user' & Hget' & _ & Hc)]];
      [congruence| |].
    { assert (user' = user) as -> by congruence. by rewrite Hd in Hpk. }
    assert (user' = user) as -> by congruence.
    destruct Hc as [(e & _ & [Hn|Hn] & _)|(pk' & ip' & Hpk' & Hip' & Hr & Hheap)];
      [congruence..|].
    assert (pk' = private_key) as -> by congruence.
    assert (ip' = ip) as -> by congruence.
    exists (length (heap st)). split_and!; [done|lia|..].
    + by rewrite Hheap, deref_new.
    + by rewrite Hheap, deref_old.
  - unfold list_users. rewrite bind_run. simpl. apply list_users_loop_state.
  - rewrite get_server_status_run. simpl. by case_decide.
Qed.

Lemma reads_leave_store_and_pool_witness :
  let r := get_user default_config "a" with_a in
  store r.2 = store with_a ∧ used_ips r.2 = used_ips with_a ∧
  r.1 = Ok (Some 1) ∧ deref (heap r.2) 0 = deref (heap with_a) 0 ∧
  (list_users with_a).2 = with_a ∧
  store (get_server_status default_config all_succeed with_a).2 =
    store with_a.
Proof.
  destruct (reads_leave_store_and_pool default_config all_succeed with_a)
    as (Hget & Hlist & Hstatus).
  { split; apply (bool_decide_unpack _); vm_compute; exact I. }
  destruct (Hget "a") as (Hstore & _ & Hused & _ & Hcopy).
  destruct (Hcopy 0 "key0" "10.8.0.2")
    as (copy & Hr & _ & _ & Hsame);
    [vm_compute; reflexivity | vm_compute; reflexivity
    | vm_compute; reflexivity |].
  destruct Hstatus as (_ & Hstore' & _).
  cbv zeta. split_and!;
    [exact Hstore | exact Hused | vm_compute; reflexivity | exact Hsame
    | exact Hlist | exact Hstore'].
Defined.

(** ** The name of a new record *)

Lemma create_user_stored_name cfg env st user_id name d :
  dict_get user_id (users st) = None →
  dict_get user_id (store (create_user cfg env user_id name st).2) = Some d →
  dict_get "name" d = Some (py_or name user_id).
Proof.
  intros Habsent.
  destruct (create_user_cases cfg env st user_id name)
    as [[[? Hin] _]|[(_ & _ & Hus & _)|(_ & ip & _ & Hus & _ & _ & Hend)]].
  - congruence.
  - rewrite dict_get_store, Hus, Habsent. done.
  - rewrite dict_get_store, Hus, dict_get_set_eq. simpl. intros [= <-].
    destruct Hend as [(msg & _ & _ & -> & _)|(_ & _ & [text ->] & _)];
      by rewrite deref_new.
Qed.

(** C9. [create_user] with the empty string as name behaves exactly as
    with no name: the record it returns, and any record it has stored for
    the id, has the id as its name. *)
Theorem create_user_empty_name cfg env st user_id :
  create_user cfg env user_id (Some "") st =
    create_user cfg env user_id None st ∧
  (∀ user st',
     create_user cfg env user_id (Some "") st = (Ok user, st') →
     dict_get user_id (users st') = Some user ∧
     dict_get "id" (deref (heap st') user) = Some user_id ∧
     dict_get "name" (deref (heap st') user) = Some user_id) ∧
  (dict_get user_id (users st) = None →
   ∀ d, dict_get user_id
          (store (create_user cfg env user_id (Some "") st).2) = Some d →
        dict_get "name" d = Some user_id).
Proof.
  split_and!.
  - reflexivity.
  - intros user st' Hrun.
    destruct (create_user_cases cfg env st user_id (Some ""))
      as [[_ Hr]|[(_ & [e Hr] & _)|(_ & ip & _ & Hus & _ & _ & Hend)]];
      rewrite Hrun in *; simpl in *; [congruence..|].
    destruct Hend as [(msg & _ & ? & _)|(_ & Huser & [text Hheap] & _)];
      [congruence|].
    assert (user = length (heap st)) as -> by congruence.
    rewrite Hus, Hheap, dict_get_set_eq, deref_new. done.
  - intros Habsent d Hd.
    by apply (create_user_stored_name cfg env st user_id (Some "") d).
Qed.

Lemma create_user_empty_name_witness :
  ∃ user st',
    create_user default_config all_succeed "b" (Some "") with_a =
      (Ok user, st') ∧
    dict_get "name" (deref (heap st') user) = Some "b".
Proof.
  destruct (create_user_empty_name default_config all_succeed with_a "b")
    as (_ & Hok & _).
  eexists _, _. split; [vm_compute; reflexivity|].
  eapply Hok. vm_compute. reflexivity.
Defined.

(** ** The reported pool capacity *)

(** C10. When the [awg show] command succeeds, the [available_ips] of
    [get_server_status] is the number of hosts of the whole subnet minus the
    size of the used set, whereas [_get_next_ip] only yields addresses from
    the start address on. With the default configuration the host 10.8.0.1
    lies below the start; after 253 creations the status reports one
    available ip and the next [create_user] raises the [RuntimeError] of an
    empty pool. *)
Theorem available_ips_counts_whole_subnet cfg env st :
  (returncode (process env (length (trace st))) = 0%Z →
   (get_server_status cfg env st).1 =
     Ok (StatusRunning (interface cfg) (length (users st))
           (Z.of_nat (length (hosts (network cfg))) -
            Z.of_nat (size (used_ips st)))
           (stdout (process env (length (trace st)))))) ∧
  (∀ s, (_get_next_ip cfg st).1 = Ok s →
     ∃ ip, s = IPv4Address_str ip ∧ (VPN_NETWORK_START cfg ≤ ip)%Z) ∧
  (ipv4 10 8 0 1 ∈ hosts (network default_config) ∧
   (ipv4 10 8 0 1 < VPN_NETWORK_START default_config)%Z ∧
   size (used_ips default_full) = 253 ∧
   (get_server_status default_config all_succeed default_full).1 =
     Ok (StatusRunning "awg0" 253 1 ("key1012" +:+ nl)) ∧
   (create_user default_config all_succeed "one-more" None default_full).1 =
     Raise (RuntimeError "No available IPs in the pool")).
Proof.
  split_and!.
  - intros Hok. rewrite get_server_status_run. simpl.
    by rewrite decide_True.
  - intros s Hs. apply _get_next_ip_Ok in Hs as (ip & -> & _ & Hstart & _).
    by exists ip.
  - apply (bool_decide_unpack _). vm_compute. exact I.
  - vm_compute. reflexivity.
  - vm_compute. reflexivity.
  - vm_compute. reflexivity.
  - vm_compute. reflexivity.
Qed.

Lemma available_ips_counts_whole_subnet_witness :
  (get_server_status small_config all_succeed small_full).1 =
    Ok (StatusRunning "awg0" 1 1 ("key4" +:+ nl)) ∧
  (create_user small_config all_succeed "b" None small_full).1 =
    Raise (RuntimeError "No available IPs in the pool").
Proof.
  destruct (available_ips_counts_whole_subnet
              small_config all_succeed small_full) as (Hstatus & _).
  split; [|vm_compute; reflexivity].
  rewrite Hstatus; [vm_compute; reflexivity | vm_compute; reflexivity].
Defined.

(** ** The users file *)

(** C6. On a manager started with no users file, with every command
    succeeding: after [create_user('a')] the users file holds for a a record
    with the six fields; after a following [create_user('b')] the file
    holds for a a record with a seventh field, [client_config], because
    [create_user] attached it to the stored object after saving; the record
    of b has the six fields. *)
Theorem users_file_record_gains_client_config :
  let st1 := run_ops default_config all_succeed [CreateUser "a" None] fresh in
  let st2 := run_ops default_config all_succeed
               [CreateUser "a" None; CreateUser "b" None] fresh in
  dict_keys <$> (users_file st1 ≫= dict_get "a") =
    Some ["id"; "name"; "private_key"; "public_key"; "ip"; "allowed_ips"] ∧
  dict_keys <$> (users_file st2 ≫= dict_get "a") =
    Some ["id"; "name"; "private_key"; "public_key"; "ip"; "allowed_ips";
          "client_config"] ∧
  dict_keys <$> (users_file st2 ≫= dict_get "b") =
    Some ["id"; "name"; "private_key"; "public_key"; "ip"; "allowed_ips"] ∧
  dict_keys <$> dict_get "b" (store st2) =
    Some ["id"; "name"; "private_key"; "public_key"; "ip"; "allowed_ips";
          "client_config"].
Proof. cbv zeta. split_and!; vm_compute; reflexivity. Qed.

(** * Further properties of the manager *)

(** ** The successful runs of [create_user] and [delete_user] *)

Section more_dict_facts.
Context {V : Type}.
Implicit Types (d : pydict V) (k : string) (v : V).

Lemma dict_get_del_ne d k k' :
  k ≠ k' → dict_get k' (dict_del k d) = dict_get k' d.
Proof.
  intros Hne. induction d as [|[k'' v''] d IH]; simpl; [done|].
  case_decide as Hk; simpl.
  - subst k''. by rewrite decide_False.
  - by rewrite IH.
Qed.

Lemma dict_get_del_eq d k :
  NoDup (dict_keys d) → dict_get k (dict_del k d) = None.
Proof.
  unfold dict_keys. induction d as [|[k' v'] d IH]; csimpl; [done|].
  intros [Hk Hnd]%NoDup_cons. case_decide as Heq; simpl.
  - subst k'. by apply dict_get_None.
  - rewrite decide_False by done. by apply IH.
Qed.

Lemma dict_del_set_fresh d k v :
  dict_get k d = None → dict_del k (dict_set k v d) = d.
Proof.
  induction d as [|[k' v'] d IH]; simpl.
  - intros _. by rewrite decide_True.
  - case_decide as Hk; [done|]. intros Hget. simpl.
    rewrite decide_False by done. by rewrite IH.
Qed.

Lemma dict_del_sublist d k : dict_del k d `sublist_of` d.
Proof.
  induction d as [|[k' v'] d IH]; simpl; [done|].
  case_decide; [by apply sublist_cons | by apply sublist_skip].
Qed.
End more_dict_facts.

(** The run of [create_user] when nothing fails. *)
Lemma create_user_ok_run cfg env st user_id name ip :
  dict_get user_id (users st) = None →
  let n := length (trace st) in
  returncode (process env n) = 0%Z →
  returncode (process env (n + 1)) = 0%Z →
  (_get_next_ip cfg st).1 = Ok ip →
  returncode (process env (n + 2)) = 0%Z →
  open_w env (n + 3) = None →
  let private_key := strip (stdout (process env n)) in
  let public_key := strip (stdout (process env (n + 1))) in
  let rec := new_record user_id name private_key public_key ip in
  let r := create_user cfg env user_id name st in
  r.1 = Ok (length (heap st)) ∧
  heap r.2 =
    heap st ++ [rec ++ [("client_config", render cfg private_key ip)]] ∧
  users r.2 = dict_set user_id (length (heap st)) (users st) ∧
  used_ips r.2 = {[ip]} ∪ used_ips st.
Proof.
  intros Habsent n Hgen Hpub Hip Hadd Hopen private_key public_key rec r.
  subst r. unfold create_user. rewrite bind_run. simpl.
  rewrite (proj2 (dict_in_false _ _) Habsent).
  rewrite bind_run, _generate_keypair_run. simpl. fold n.
  rewrite !decide_True by done.
  rewrite bind_run, _get_next_ip_eta.
  rewrite (_get_next_ip_used cfg _ st) by done. rewrite Hip.
  rewrite bind_run. simpl.
  unfold _add_peer. rewrite !bind_run, _run_awg_command_run. simpl.
  rewrite length_app. simpl. fold n. rewrite decide_True by done. simpl.
  repeat (rewrite bind_run; simpl).
  rewrite _save_users_run. simpl. rewrite !length_app. simpl.
  fold n. replace (n + 2 + 1) with (n + 3) by lia. rewrite Hopen.
  rewrite bind_run.
  rewrite (_generate_client_config_render cfg _ _ private_key ip)
    by (simpl; by rewrite deref_new).
  simpl. by rewrite alter_new.
Qed.

(** X1. In a well-formed state where the id is not stored, when the three
    commands succeed, the pool yields [ip] and the users file can be
    written, [create_user] returns a new object holding the six fields and
    the rendered client configuration, appends it to the store under the
    id, marks [ip] used, and has written to the users file the previous
    store followed by the new record with its six fields. The commands run
    are genkey, pubkey fed the private key, and the set-peer command with
    [ip/32]. *)
Theorem create_user_success cfg env st user_id name ip :
  wf st →
  dict_get user_id (users st) = None →
  let n := length (trace st) in
  returncode (process env n) = 0%Z →
  returncode (process env (n + 1)) = 0%Z →
  (_get_next_ip cfg st).1 = Ok ip →
  returncode (process env (n + 2)) = 0%Z →
  open_w env (n + 3) = None →
  let private_key := strip (stdout (process env n)) in
  let public_key := strip (stdout (process env (n + 1))) in
  let rec := new_record user_id name private_key public_key ip in
  let user := length (heap st) in
  let r := create_user cfg env user_id name st in
  r.1 = Ok user ∧
  heap r.2 =
    heap st ++ [rec ++ [("client_config", render cfg private_key ip)]] ∧
  users r.2 = users st ++ [(user_id, user)] ∧
  used_ips r.2 = {[ip]} ∪ used_ips st ∧
  users_file r.2 = Some (store st ++ [(user_id, rec)]) ∧
  trace r.2 = trace st ++
    [Run ["awg"; "genkey"] None;
     Run ["awg"; "pubkey"] (Some private_key);
     Run ["awg"; "set"; interface cfg; "peer"; public_key;
          "allowed-ips"; ip +:+ "/32"] None;
     OpenWrite].
Proof.
  intros [_ Hlocs] Habsent n Hgen Hpub Hip Hadd Hopen private_key public_key
    rec user r.
  subst r. unfold create_user. rewrite bind_run. simpl.
  rewrite (proj2 (dict_in_false _ _) Habsent).
  rewrite bind_run, _generate_keypair_run. simpl. fold n.
  rewrite !decide_True by done.
  rewrite bind_run, _get_next_ip_eta.
  rewrite (_get_next_ip_used cfg _ st) by done. rewrite Hip.
  rewrite bind_run. simpl.
  unfold _add_peer. rewrite !bind_run, _run_awg_command_run. simpl.
  rewrite length_app. simpl. fold n. rewrite decide_True by done. simpl.
  repeat (rewrite bind_run; simpl).
  rewrite _save_users_run. simpl. rewrite !length_app. simpl.
  fold n. replace (n + 2 + 1) with (n + 3) by lia. rewrite Hopen.
  rewrite bind_run.
  rewrite (_generate_client_config_render cfg _ _ private_key ip)
    by (simpl; by rewrite deref_new).
  simpl. rewrite alter_new. fold user.
  split_and!; try done.
  - by apply dict_set_fresh.
  - unfold store; simpl. rewrite dict_set_fresh by done.
    rewrite store_of_app, store_of_grow by done. unfold store_of at 2.
    simpl. by rewrite deref_new.
  - by rewrite <-!app_assoc.
Qed.



Lemma delete_user_run cfg env st user_id user public_key ip :
  dict_get user_id (users st) = Some user →
  dict_get "public_key" (deref (heap st) user) = Some public_key →
  dict_get "ip" (deref (heap st) user) = Some ip →
  returncode (process env (length (trace st))) = 0%Z →
  delete_user cfg env user_id st =
    let st1 :=
      with_trace
        (trace st ++
         [Run ["awg"; "set"; interface cfg; "peer"; public_key; "remove"]
              None; OpenWrite])
        (with_users (dict_del user_id (users st))
           (with_used_ips (used_ips st ∖ {[ip]}) st)) in
    match open_w env (length (trace st) + 1) with
    | Some msg => (Raise (OSError msg), st1)
    | None => (Ok true, with_users_file (Some (store st1)) st1)
    end.
Proof.
  intros Hget Hpk Hip Hrm. unfold delete_user. rewrite bind_run. simpl.
  rewrite Hget. rewrite bind_run, (getitem_Some _ _ _ _ Hpk).
  unfold _remove_peer. rewrite !bind_run, _run_awg_command_run. simpl.
  rewrite decide_True by done. simpl.
  rewrite bind_run, getitem_Some with (v := ip) by done.
  repeat (rewrite bind_run; simpl). rewrite _save_users_run. simpl.
  rewrite length_app. simpl.
  destruct (open_w env _) as [msg|]; simpl; by rewrite <-app_assoc.
Qed.

(** X2. In a well-formed state, for a stored id whose record has a public
    key and an ip, when the remove command succeeds and the users file can
    be written, [delete_user] returns [True]: the id is no longer stored,
    every other id has the record it had, the ip is taken out of the used
    set, and the users file holds the store as it now is. *)
Theorem delete_user_success cfg env st user_id user public_key ip :
  wf st →
  dict_get user_id (users st) = Some user →
  dict_get "public_key" (deref (heap st) user) = Some public_key →
  dict_get "ip" (deref (heap st) user) = Some ip →
  returncode (process env (length (trace st))) = 0%Z →
  open_w env (length (trace st) + 1) = None →
  let r := delete_user cfg env user_id st in
  r.1 = Ok true ∧
  dict_get user_id (store r.2) = None ∧
  (∀ other, other ≠ user_id →
     dict_get other (store r.2) = dict_get other (store st)) ∧
  used_ips r.2 = used_ips st ∖ {[ip]} ∧
  users_file r.2 = Some (store r.2) ∧
  trace r.2 = trace st ++
    [Run ["awg"; "set"; interface cfg; "peer"; public_key; "remove"] None;
     OpenWrite].
Proof.
  intros [Hkeys _] Hget Hpk Hip Hrm Hopen r. subst r.
  rewrite (delete_user_run cfg env st user_id user public_key ip) by done.
  simpl. rewrite Hopen. simpl. split_and!; try done.
  - rewrite dict_get_store. simpl. by rewrite dict_get_del_eq.
  - intros other Hne. rewrite !dict_get_store. simpl.
    by rewrite dict_get_del_ne.
Qed.

(** X3. Deleting a user right after creating it undoes the creation: if
    [create_user] returned and the remove command then succeeds,
    [self.users], the used set and the store are what they were before the
    creation, whether or not the users file could be written. *)
Theorem create_then_delete_restores cfg env st user_id name user st1 :
  wf st →
  create_user cfg env user_id name st = (Ok user, st1) →
  returncode (process env (length (trace st1))) = 0%Z →
  let r := delete_user cfg env user_id st1 in
  users r.2 = users st ∧ used_ips r.2 = used_ips st ∧ store r.2 = store st.
Proof.
  intros Hwf Hrun Hrm r.
  destruct (create_user_cases cfg env st user_id name)
    as [[_ Hr]|[(_ & [e Hr] & _)|(Habsent & ip & Hip & Hus & Hu & _ & Hend)]];
    rewrite Hrun in *; simpl in *; [congruence..|].
  destruct Hend as [(msg & _ & ? & _)|(_ & Huser & [text Hheap] & _)];
    [congruence|].
  assert (user = length (heap st)) as -> by congruence.
  apply _get_next_ip_Ok in Hip as (_ & _ & _ & _ & Hfree & _).
  subst r.
  rewrite (delete_user_run cfg env st1 user_id (length (heap st))
             (strip (stdout (process env (length (trace st) + 1)))) ip);
    try done.
  2:{ by rewrite Hus, dict_get_set_eq. }
  2,3: by rewrite Hheap, deref_new.
  assert (dict_del user_id (users st1) = users st) as Hdel
    by (by rewrite Hus, dict_del_set_fresh).
  assert (used_ips st1 ∖ {[ip]} = used_ips st) as Hused.
  { rewrite Hu. apply set_eq. intros x.
    rewrite elem_of_difference, elem_of_union, !elem_of_singleton.
    split; [tauto|]. intros Hx. split; [tauto|]. by intros ->. }
  destruct (open_w env _) as [msg|]; simpl; rewrite Hdel, Hused;
    (split_and!; try done);
    unfold store; simpl; rewrite Hheap; apply store_of_grow, Hwf.
Qed.

(** ** Records of other users *)

Lemma wf_frame st st' :
  wf st → users st' = users st → (∃ h, heap st' = heap st ++ h) → wf st'.
Proof.
  intros [Hkeys Hlocs] Hus [h Hh]. unfold wf. rewrite Hus, Hh. split; [done|].
  eapply Forall_impl; [exact Hlocs|]. intros p ?. simpl in *.
  rewrite length_app. lia.
Qed.

Lemma wf_commit st st' user_id rec :
  wf st → dict_get user_id (users st) = None →
  users st' = dict_set user_id (length (heap st)) (users st) →
  heap st' = heap st ++ [rec] → wf st'.
Proof.
  intros [Hkeys Hlocs] Habsent Hus Hh. unfold wf.
  rewrite Hus, Hh, dict_set_fresh by done. split.
  - unfold dict_keys in *. rewrite fmap_app. simpl.
    apply NoDup_app. split_and!; [done| |apply NoDup_singleton].
    intros k Hk ->%list_elem_of_singleton. by apply dict_get_None in Habsent.
  - apply Forall_app. split.
    + eapply Forall_impl; [exact Hlocs|]. intros p ?. simpl in *.
      rewrite length_app. lia.
    + constructor; [|done]. simpl. rewrite length_app. simpl. lia.
Qed.

Lemma wf_delete st st' user_id :
  wf st → heap st' = heap st → users st' = dict_del user_id (users st) →
  wf st'.
Proof.
  intros [Hkeys Hlocs] Hh Hus. unfold wf. rewrite Hus, Hh.
  pose proof (dict_del_sublist (users st) user_id) as Hsub. split.
  - unfold dict_keys in *. apply (sublist_NoDup _ (users st).*1); [done|by apply fmap_sublist].
  - rewrite Forall_forall in Hlocs |- *. intros p Hp.
    by eapply Hlocs, elem_of_sublist.
Qed.

Lemma create_user_wf cfg env st user_id name :
  wf st → wf (create_user cfg env user_id name st).2.
Proof.
  intros Hst.
  destruct (create_user_cases cfg env st user_id name)
    as [[_ ->]|[(_ & _ & Hus & _ & _ & Hh & _)
               |(Habsent & ip & _ & Hus & _ & _ & Hend)]]; [done|..].
  - by eapply wf_frame.
  - destruct Hend as [(msg & _ & _ & Hh & _)|(_ & _ & [text Hh] & _)];
      by eapply wf_commit.
Qed.

Lemma delete_user_wf cfg env st user_id :
  wf st → wf (delete_user cfg env user_id st).2.
Proof.
  intros Hst.
  destruct (delete_user_cases cfg env st user_id)
    as [(_ & Hh & Hus & _)|(? & ? & ? & _ & _ & _ & Hh & Hus & _)].
  - eapply wf_frame; try done. exists []. by rewrite app_nil_r.
  - by eapply wf_delete.
Qed.

Lemma run_op_wf cfg env o st : wf st → wf (run_op cfg env o st).
Proof.
  destruct o; simpl; [apply create_user_wf | apply delete_user_wf].
Qed.

Lemma run_op_keeps_record cfg env o st user_id d :
  wf st → dict_get user_id (store st) = Some d →
  o ≠ DeleteUser user_id →
  dict_get user_id (store (run_op cfg env o st)) = Some d.
Proof.
  intros Hwf Hget Ho. destruct o as [id name|id]; simpl.
  - destruct (create_user_cases cfg env st id name)
      as [[_ ->]|[(_ & _ & Hus & _ & _ & Hh & _)
                 |(Habsent & ip & _ & Hus & _ & _ & Hend)]]; [done|..].
    + by rewrite (store_grow st).
    + assert (∃ x, heap (create_user cfg env id name st).2 = heap st ++ [x])
        as [x Hh].
      { destruct Hend as [(msg & _ & _ & Hh & _)|(_ & _ & [text Hh] & _)];
          by eexists. }
      rewrite dict_get_store in Hget |- *. rewrite Hus, Hh.
      destruct (dict_get user_id (users st)) as [l|] eqn:Hl; [|done].
      assert (id ≠ user_id) by congruence.
      rewrite dict_get_set_ne, Hl by done. simpl in *.
      rewrite deref_old; [done|].
      destruct Hwf as [_ Hlocs]. rewrite Forall_forall in Hlocs.
      by apply (Hlocs (user_id, l)), dict_get_elem_of.
  - assert (id ≠ user_id) by congruence.
    destruct (delete_user_cases cfg env st id)
      as [(_ & Hh & Hus & _)|(? & ? & ? & _ & _ & _ & Hh & Hus & _)];
      rewrite dict_get_store in Hget |- *; rewrite Hus, Hh;
      [done|by rewrite dict_get_del_ne].
Qed.

(** X4. In a well-formed state, a stored user's record (its keys and ip
    among the fields) is the same after any sequence of [create_user] and
    [delete_user] calls that does not delete that user, whatever those calls
    do and however they end. *)
Theorem stored_record_kept cfg env ops st user_id d :
  wf st → dict_get user_id (store st) = Some d →
  DeleteUser user_id ∉ ops →
  dict_get user_id (store (run_ops cfg env ops st)) = Some d.
Proof.
  revert st. induction ops as [|o ops IH]; intros st Hwf Hget Hops; simpl;
    [done|].
  apply not_elem_of_cons in Hops as [Ho Hops].
  apply IH; [by apply run_op_wf| |done].
  apply run_op_keeps_record; [done..|congruence].
Qed.

(** ** Listing and status *)

Lemma list_entry_eq user_id d :
  list_entry (user_id, d) =
  match dict_get "name" d, dict_get "ip" d, dict_get "public_key" d with
  | Some name, Some ip, Some public_key =>
      Some [("id", user_id); ("name", name); ("ip", ip);
            ("public_key", public_key)]
  | _, _, _ => None
  end.
Proof.
  unfold list_entry. simpl.
  destruct (dict_get "name" d); simpl; [|done].
  destruct (dict_get "ip" d); simpl; [|done].
  by destruct (dict_get "public_key" d).
Qed.

Lemma list_users_loop_run us st :
  match mapM list_entry (store_of (heap st) us) with
  | Some l => list_users_loop us st = (Ok l, st)
  | None => ∃ k, k ∈ ["name"; "ip"; "public_key"] ∧
                 list_users_loop us st = (Raise (KeyError k), st)
  end.
Proof.
  induction us as [|[user_id user] us IH]; [done|].
  rewrite store_of_cons.
  change (mapM list_entry ((user_id, deref (heap st) user) ::
                           store_of (heap st) us))
    with (y ← list_entry (user_id, deref (heap st) user);
          k ← mapM list_entry (store_of (heap st) us); mret (y :: k)).
  rewrite list_entry_eq. simpl list_users_loop. rewrite bind_run.
  destruct (dict_get "name" (deref (heap st) user)) as [name|] eqn:Hname.
  2:{ rewrite getitem_None by done. simpl. exists "name". split; [|done].
      apply elem_of_cons; by left. }
  rewrite getitem_Some with (v := name) by done. rewrite bind_run.
  destruct (dict_get "ip" (deref (heap st) user)) as [ip|] eqn:Hip.
  2:{ rewrite getitem_None by done. simpl. exists "ip". split; [|done].
      apply elem_of_cons; right. apply elem_of_cons; by left. }
  rewrite getitem_Some with (v := ip) by done. rewrite bind_run.
  destruct (dict_get "public_key" (deref (heap st) user)) as [pk|] eqn:Hpk.
  2:{ rewrite getitem_None by done. simpl. exists "public_key".
      split; [|done]. do 2 (apply elem_of_cons; right).
      apply elem_of_cons; by left. }
  rewrite getitem_Some with (v := pk) by done. rewrite bind_run. simpl.
  destruct (mapM list_entry (store_of (heap st) us)) as [l|]; simpl.
  - by rewrite IH.
  - destruct IH as (k & Hk & ->). simpl. by exists k.
Qed.

(** X5. [list_users] returns exactly when every stored record has a name,
    an ip and a public key, and then gives, for the stored users in
    insertion order, the dict key as id with those three fields: one entry
    per user, each with the keys id, name, ip, public_key and no other (no
    private key, no client configuration). Otherwise it raises the
    [KeyError] of one of the three fields. *)
Theorem list_users_entries st :
  (∀ l, list_users st = (Ok l, st) ↔
        Forall2 (fun p e => list_entry p = Some e) (store st) l) ∧
  (∀ l, list_users st = (Ok l, st) →
        length l = length (users st) ∧
        Forall (fun e => dict_keys e = ["id"; "name"; "ip"; "public_key"]) l) ∧
  (∀ e, (list_users st).1 = Raise e →
        ∃ k, e = KeyError k ∧ k ∈ ["name"; "ip"; "public_key"]).
Proof.
  assert (list_users st = list_users_loop (users st) st) as Hrun
    by (unfold list_users; by rewrite bind_run).
  pose proof (list_users_loop_run (users st) st) as Hloop.
  fold (store st) in Hloop. rewrite Hrun.
  assert (∀ l, list_users_loop (users st) st = (Ok l, st) ↔
               Forall2 (fun p e => list_entry p = Some e) (store st) l) as Hiff.
  { intros l. rewrite <-mapM_Some.
    destruct (mapM list_entry (store st)) as [l'|].
    - rewrite Hloop. split; congruence.
    - destruct Hloop as (k & _ & ->). split; congruence. }
  split_and!; [done| |].
  - intros l Hl%Hiff. split.
    + apply Forall2_length in Hl. rewrite <-Hl. unfold store, store_of.
      apply length_fmap.
    + clear -Hl. induction Hl as [|[id d] e s l He _ IH]; constructor; [|done].
      rewrite list_entry_eq in He.
      destruct (dict_get "name" d); [|done].
      destruct (dict_get "ip" d); [|done].
      destruct (dict_get "public_key" d); [|done].
      by injection He as <-.
  - intros e. destruct (mapM list_entry (store st)) as [l'|].
    + by rewrite Hloop.
    + destruct Hloop as (k & Hk & ->). simpl. intros [= <-]. by exists k.
Qed.

Lemma get_server_status_Ok cfg env st :
  ∃ s, get_server_status cfg env st =
         (Ok s, with_trace
                  (trace st ++ [Run ["awg"; "show"; interface cfg] None]) st).
Proof. rewrite get_server_status_run. simpl. case_decide; by eexists. Qed.

Lemma consistent_size st :
  consistent st → length (users st) = size (used_ips st).
Proof.
  intros Hst. rewrite <-(consistent_length st) by done.
  destruct Hst as (_ & _ & Hnd & Hset).
  assert (used_ips st = list_to_set (store_ips st)) as ->.
  { apply set_eq. intros x. by rewrite elem_of_list_to_set, Hset. }
  by rewrite size_list_to_set.
Qed.

(** X6. [get_server_status] never raises: it runs [awg show] on the
    interface, touches nothing else, and when the command exits nonzero it
    returns the error status carrying the text of the failed command. *)
Theorem get_server_status_never_raises cfg env st :
  let p := process env (length (trace st)) in
  let r := get_server_status cfg env st in
  (∃ s, r.1 = Ok s) ∧
  r.2 = with_trace
          (trace st ++ [Run ["awg"; "show"; interface cfg] None]) st ∧
  (returncode p ≠ 0%Z →
   r.1 = Ok (StatusError (interface cfg)
               ("awg command failed: " +:+ stderr p))).
Proof.
  intros p r. subst p r. rewrite get_server_status_run. simpl.
  case_decide; simpl; split_and!; eauto; done.
Qed.

(** X7. After any sequence of [create_user] and [delete_user] calls, from a
    fresh manager or from any consistent state, the number of stored users
    is the number of used ips, so the [available_ips] a successful
    [get_server_status] reports is the number of hosts of the subnet minus
    [total_users]. *)
Theorem total_users_is_used_count cfg env ops :
  (let st := run_ops cfg env ops fresh in
   length (users st) = size (used_ips st)) ∧
  (∀ st0, consistent st0 →
     let st := run_ops cfg env ops st0 in
     length (users st) = size (used_ips st) ∧
     (returncode (process env (length (trace st))) = 0%Z →
      (get_server_status cfg env st).1 =
        Ok (StatusRunning (interface cfg) (length (users st))
              (Z.of_nat (length (hosts (network cfg))) -
               Z.of_nat (length (users st)))
              (stdout (process env (length (trace st))))))).
Proof.
  split.
  - apply consistent_size, run_ops_consistent, fresh_consistent.
  - intros st0 Hst0 st.
    assert (length (users st) = size (used_ips st)) as Hlen
      by apply consistent_size, run_ops_consistent, Hst0.
    split; [done|]. intros Hok. rewrite get_server_status_run. simpl.
    rewrite decide_True by done. simpl. by rewrite Hlen.
Qed.

Lemma create_user_allocatable cfg env st user_id name :
  (∀ s, s ∈ used_ips st → allocatable cfg s) →
  ∀ s, s ∈ used_ips (create_user cfg env user_id name st).2 →
       allocatable cfg s.
Proof.
  intros Hst s.
  destruct (create_user_cases cfg env st user_id name)
    as [[_ ->]|[(_ & _ & _ & -> & _)
               |(_ & ip & Hip & _ & -> & _)]]; [by auto..|].
  intros [->%elem_of_singleton|Hs]%elem_of_union; [|by auto].
  apply _get_next_ip_Ok in Hip as (a & -> & Hin & Hstart & _).
  by exists a.
Qed.

Lemma delete_user_allocatable cfg env st user_id :
  (∀ s, s ∈ used_ips st → allocatable cfg s) →
  ∀ s, s ∈ used_ips (delete_user cfg env user_id st).2 →
       allocatable cfg s.
Proof.
  intros Hst s.
  destruct (delete_user_cases cfg env st user_id)
    as [(_ & _ & _ & -> & _)|(? & ? & ? & _ & _ & _ & _ & _ & -> & _)];
    [by auto|].
  intros [Hs _]%elem_of_difference. by auto.
Qed.

(** X8. After any sequence of calls on a fresh manager, every ip in the
    used set is the text of a host address of the configured subnet that is
    not below the start address; unless the subnet is a /31 or /32, such an
    address lies strictly between the network and the broadcast address. *)
Theorem used_ips_are_hosts_from_start cfg env ops s :
  s ∈ used_ips (run_ops cfg env ops fresh) →
  ∃ ip, s = IPv4Address_str ip ∧ ip ∈ hosts (network cfg) ∧
    (VPN_NETWORK_START cfg ≤ ip)%Z ∧
    (prefixlen (network cfg) ≠ 31%Z → prefixlen (network cfg) ≠ 32%Z →
     (network_address (network cfg) < ip <
      broadcast_address (network cfg))%Z).
Proof.
  intros Hs.
  assert (∀ st, (∀ s, s ∈ used_ips st → allocatable cfg s) →
                ∀ s, s ∈ used_ips (run_ops cfg env ops st) →
                     allocatable cfg s) as Hgen.
  { clear Hs. induction ops as [|o ops IH]; intros st Hst; simpl; [done|].
    apply IH. destruct o; simpl.
    - by apply create_user_allocatable.
    - by apply delete_user_allocatable. }
  destruct (Hgen fresh) with (s := s) as (ip & -> & Hin & Hstart); [|done|].
  { intros s' Hs'. by apply elem_of_empty in Hs'. }
  exists ip. split_and!; try done.
  intros H31 H32. unfold hosts in Hin.
  rewrite !decide_False in Hin by done.
  apply elem_of_seqZ in Hin. lia.
Qed.

(** ** Failures around the commit *)


(** X10. When the peer was registered but the users file cannot be
    opened for writing, [create_user] raises the [OSError]; the user is
    nevertheless in [self.users] with its six-field record, its ip is in
    the used set and the set-peer command has been sent, while the users
    file is what it was. *)
Theorem create_user_save_fails cfg env st user_id name ip msg :
  dict_get user_id (users st) = None →
  let n := length (trace st) in
  returncode (process env n) = 0%Z →
  returncode (process env (n + 1)) = 0%Z →
  (_get_next_ip cfg st).1 = Ok ip →
  returncode (process env (n + 2)) = 0%Z →
  open_w env (n + 3) = Some msg →
  let private_key := strip (stdout (process env n)) in
  let public_key := strip (stdout (process env (n + 1))) in
  let user := length (heap st) in
  let r := create_user cfg env user_id name st in
  r.1 = Raise (OSError msg) ∧
  dict_get user_id (users r.2) = Some user ∧
  deref (heap r.2) user =
    new_record user_id name private_key public_key ip ∧
  ip ∈ used_ips r.2 ∧
  users_file r.2 = users_file st ∧
  peer_commands (trace r.2) =
    peer_commands (trace st) ++
    [Run ["awg"; "set"; interface cfg; "peer"; public_key;
          "allowed-ips"; ip +:+ "/32"] None].
Proof.
  intros Habsent n Hgen Hpub Hip Hadd Hopen private_key public_key user r.
  subst r. unfold create_user. rewrite bind_run. simpl.
  rewrite (proj2 (dict_in_false _ _) Habsent).
  rewrite bind_run, _generate_keypair_run. simpl. fold n.
  rewrite !decide_True by done.
  rewrite bind_run, _get_next_ip_eta.
  rewrite (_get_next_ip_used cfg _ st) by done. rewrite Hip.
  rewrite bind_run. simpl.
  unfold _add_peer. rewrite !bind_run, _run_awg_command_run. simpl.
  rewrite length_app. simpl. fold n. rewrite decide_True by done. simpl.
  repeat (rewrite bind_run; simpl).
  rewrite _save_users_run. simpl. rewrite !length_app. simpl.
  fold n. replace (n + 2 + 1) with (n + 3) by lia. rewrite Hopen. simpl.
  split_and!; try done.
  - by rewrite dict_get_set_eq.
  - by rewrite deref_new.
  - apply elem_of_union; left. by apply elem_of_singleton.
  - unfold peer_commands. rewrite !filter_app. simpl.
    by rewrite !app_nil_r.
Qed.

Lemma create_user_Ok_inv cfg env st user_id name user st1 :
  create_user cfg env user_id name st = (Ok user, st1) →
  let n := length (trace st) in
  dict_get user_id (users st) = None ∧
  returncode (process env n) = 0%Z ∧
  returncode (process env (n + 1)) = 0%Z ∧
  (∃ ip, (_get_next_ip cfg st).1 = Ok ip) ∧
  returncode (process env (n + 2)) = 0%Z ∧
  open_w env (n + 3) = None.
Proof.
  intros Hrun n. revert Hrun.
  unfold create_user. rewrite bind_run. simpl.
  destruct (dict_in user_id (users st)) eqn:Hin; [done|].
  apply dict_in_false in Hin.
  rewrite bind_run, _generate_keypair_run. simpl. fold n.
  destruct (decide (returncode (process env n) = 0%Z)) as [Hgen|Hgen];
    [|done].
  destruct (decide (returncode (process env (n + 1)) = 0%Z)) as [Hpub|Hpub];
    [|done].
  rewrite bind_run, _get_next_ip_eta.
  rewrite (_get_next_ip_used cfg _ st) by done.
  destruct (_get_next_ip cfg st).1 as [ip|e] eqn:Hip; [|done].
  rewrite bind_run. simpl.
  unfold _add_peer. rewrite !bind_run, _run_awg_command_run. simpl.
  rewrite length_app. simpl. fold n.
  destruct (decide (returncode (process env (n + 2)) = 0%Z)) as [Hadd|Hadd];
    [|done].
  simpl. repeat (rewrite bind_run; simpl).
  rewrite _save_users_run. simpl. rewrite !length_app. simpl.
  fold n. replace (n + 2 + 1) with (n + 3) by lia.
  destruct (open_w env (n + 3)) as [msg|] eqn:Hopen; [done|].
  intros _. split_and!; eauto.
Qed.

(** ** Reading back a created user *)

(** X11. In a well-formed state, [get_user] of an id right after the
    [create_user] that returned it gives a new object, different from the
    stored one, with the same seven fields and values as the record
    [create_user] returned; the store and the used set are untouched. *)
Theorem get_user_after_create cfg env st user_id name user st1 :
  wf st →
  create_user cfg env user_id name st = (Ok user, st1) →
  let r := get_user cfg user_id st1 in
  ∃ copy, r.1 = Ok (Some copy) ∧ copy ≠ user ∧
    deref (heap r.2) copy = deref (heap st1) user ∧
    dict_keys (deref (heap r.2) copy) =
      ["id"; "name"; "private_key"; "public_key"; "ip"; "allowed_ips";
       "client_config"] ∧
    store r.2 = store st1 ∧ used_ips r.2 = used_ips st1.
Proof.
  intros Hwf Hrun r.
  destruct (create_user_Ok_inv cfg env st user_id name user st1 Hrun)
    as (Habsent & Hgen & Hpub & [ip Hip] & Hadd & Hopen).
  destruct (create_user_ok_run cfg env st user_id name ip)
    as (Hr & Hheap & Hus & Hu); try done.
  rewrite Hrun in Hr, Hheap, Hus, Hu. simpl in Hr, Hheap, Hus, Hu.
  assert (user = length (heap st)) as -> by congruence.
  assert (wf st1) as Hwf1.
  { pose proof (create_user_wf cfg env st user_id name Hwf) as H.
    by rewrite Hrun in H. }
  destruct (get_user_cases cfg st1 user_id) as (Hus' & Hu' & _ & _ & Hcases).
  fold r in Hus', Hu', Hcases.
  assert (dict_get user_id (users st1) = Some (length (heap st))) as Hget.
  { rewrite Hus. apply dict_get_set_eq. }
  set (private_key := strip (stdout (process env (length (trace st))))) in *.
  set (public_key := strip (stdout (process env (length (trace st) + 1))))
    in *.
  assert (deref (heap st1) (length (heap st)) =
          new_record user_id name private_key public_key ip ++
          [("client_config", render cfg private_key ip)]) as Hrec
    by (by rewrite Hheap, deref_new).
  destruct Hcases as [[? _]|[(u & Hu1 & Hd & _)|(u & Hu1 & _ & Hc)]];
    [congruence| |].
  { assert (u = length (heap st)) as -> by congruence.
    by rewrite Hrec in Hd. }
  assert (u = length (heap st)) as -> by congruence.
  rewrite Hrec in Hc.
  destruct Hc as [(e & _ & [Hn|Hn] & _)|(pk & ip' & Hpk & Hip' & Hr' & Hh')];
    [done..|].
  injection Hpk as <-. injection Hip' as <-.
  exists (length (heap st1)). split_and!; try done.
  - rewrite Hheap, length_app. simpl. lia.
  - by rewrite Hh', deref_new.
  - by rewrite Hh', deref_new.
  - apply store_grow; [done..|]. by eexists.
Qed.

(** ** Starting from a users file *)

Lemma json_load_run doc acc st :
  NoDup (dict_keys acc ++ dict_keys doc) →
  json_load doc acc st =
    (Ok (acc ++ zip (dict_keys doc) (seq (length (heap st)) (length doc))),
     with_heap (heap st ++ doc.*2) st).
Proof.
  revert acc st. induction doc as [|[id d] doc IH]; intros acc st Hnd.
  - simpl. rewrite !app_nil_r. by destruct st.
  - simpl json_load. rewrite bind_run. simpl.
    assert (dict_get id acc = None) as Hfresh.
    { apply dict_get_None. apply NoDup_app in Hnd as (_ & Hdisj & _).
      intros Hin. apply (Hdisj id Hin). unfold dict_keys. csimpl.
      apply elem_of_cons; by left. }
    rewrite dict_set_fresh by done. rewrite IH.
    + simpl. rewrite length_app. simpl.
      replace (length (heap st) + 1) with (S (length (heap st))) by lia.
      unfold with_heap. simpl. by rewrite <-!app_assoc.
    + unfold dict_keys in *. rewrite fmap_app, <-app_assoc. done.
Qed.

Lemma store_of_loaded h doc :
  store_of (h ++ doc.*2) (zip (dict_keys doc) (seq (length h) (length doc)))
  = doc.
Proof.
  revert h. induction doc as [|[id d] doc IH]; intros h; [done|].
  unfold dict_keys in *. csimpl. f_equal.
  - f_equal. unfold deref. by rewrite list_lookup_middle.
  - specialize (IH (h ++ [d])). rewrite length_app in IH. simpl in IH.
    replace (length h + 1) with (S (length h)) in IH by lia.
    by rewrite <-app_assoc in IH.
Qed.

Lemma collect_ips_run us st :
  match mapM (fun p => dict_get "ip" p.2) (store_of (heap st) us) with
  | Some ips => collect_ips us st = (Ok (list_to_set ips), st)
  | None => collect_ips us st = (Raise (KeyError "ip"), st)
  end.
Proof.
  induction us as [|[id user] us IH]; [done|].
  rewrite store_of_cons.
  change (mapM (fun p : string * record => dict_get "ip" p.2)
            ((id, deref (heap st) user) :: store_of (heap st) us))
    with (y ← dict_get "ip" (deref (heap st) user);
          k ← mapM (fun p : string * record => dict_get "ip" p.2)
                (store_of (heap st) us); mret (y :: k)).
  simpl collect_ips. rewrite bind_run.
  destruct (dict_get "ip" (deref (heap st) user)) as [ip|] eqn:Hip.
  2:{ by rewrite getitem_None. }
  rewrite getitem_Some with (v := ip) by done. rewrite bind_run. simpl.
  destruct (mapM _ (store_of (heap st) us)) as [ips|]; simpl;
    by rewrite IH.
Qed.

Lemma mapM_ips_of (s : pydict record) :
  Forall (fun p => is_Some (dict_get "ip" p.2)) s →
  mapM (fun p => dict_get "ip" p.2) s = Some (ips_of s).
Proof.
  induction 1 as [|[id d] s [ip Hip] _ IH]; [done|]. simpl in Hip.
  rewrite (ips_of_cons_Some _ _ _ _ Hip).
  change (mapM (fun p : string * record => dict_get "ip" p.2) ((id, d) :: s))
    with (y ← dict_get "ip" d;
          k ← mapM (fun p : string * record => dict_get "ip" p.2) s;
          mret (y :: k)).
  by rewrite Hip, IH.
Qed.

Lemma mapM_ips_None (s : pydict record) :
  ¬ Forall (fun p => is_Some (dict_get "ip" p.2)) s →
  mapM (fun p => dict_get "ip" p.2) s = None.
Proof.
  intros Hnot. destruct (mapM _ s) as [ips|] eqn:Hm; [|done].
  exfalso. apply Hnot. clear Hnot. apply mapM_Some in Hm.
  induction Hm as [|[id d] ip s ips Hd _ IH]; constructor; [by eexists|done].
Qed.

Lemma __init___run doc :
  NoDup (dict_keys doc) →
  let loaded :=
    with_users (zip (dict_keys doc) (seq 0 (length doc)))
      (with_heap (doc.*2) (boot (Some doc))) in
  store loaded = doc ∧
  __init__ (boot (Some doc)) =
    match mapM (fun p => dict_get "ip" p.2) doc with
    | Some ips => (Ok tt, with_used_ips (list_to_set ips) loaded)
    | None => (Raise (KeyError "ip"), loaded)
    end.
Proof.
  intros Hnd loaded.
  assert (store loaded = doc) as Hstore by apply (store_of_loaded [] doc).
  split; [done|].
  unfold __init__, _load_users. rewrite !bind_run. simpl.
  rewrite json_load_run by done. simpl.
  repeat (rewrite bind_run; simpl).
  pose proof (collect_ips_run (zip (dict_keys doc) (seq 0 (length doc)))
                loaded) as Hc.
  change (store_of (heap loaded) _) with (store loaded) in Hc.
  rewrite Hstore in Hc.
  unfold loaded in *. destruct (mapM _ doc) as [ips|]; by rewrite Hc.
Qed.

Lemma loaded_wf doc used :
  NoDup (dict_keys doc) →
  wf (with_used_ips used
        (with_users (zip (dict_keys doc) (seq 0 (length doc)))
           (with_heap (doc.*2) (boot (Some doc))))).
Proof.
  intros Hnd. unfold wf. simpl. split.
  - unfold dict_keys in *. rewrite fst_zip; [done|].
    rewrite length_fmap, length_seq. lia.
  - apply Forall_forall. intros [k i] Hin. simpl.
    apply elem_of_zip_r in Hin. apply elem_of_seq in Hin.
    rewrite length_fmap. lia.
Qed.

Lemma loaded_consistent doc :
  NoDup (dict_keys doc) →
  Forall (fun p => is_Some (dict_get "ip" p.2)) doc →
  NoDup (ips_of doc) →
  consistent (with_used_ips (list_to_set (ips_of doc))
                (with_users (zip (dict_keys doc) (seq 0 (length doc)))
                   (with_heap (doc.*2) (boot (Some doc))))).
Proof.
  intros Hnd Hip Hips.
  pose proof (store_of_loaded [] doc) as Hstore. simpl in Hstore.
  unfold consistent, ip_invariant, store_ips, store. simpl.
  rewrite Hstore. split_and!; try done.
  - by apply loaded_wf.
  - intros ip. by rewrite elem_of_list_to_set.
Qed.

(** X12. Started on a users file whose ids are pairwise different, the
    constructor loads exactly the file's records as the store. If every
    record has an ip it returns with the used set being the set of those
    ips, and the state is consistent when the ips are pairwise different;
    if some record has no ip it raises [KeyError('ip')]. It runs no command
    and does not write the file. *)
Theorem init_from_users_file doc :
  NoDup (dict_keys doc) →
  let r := __init__ (boot (Some doc)) in
  store r.2 = doc ∧ users_file r.2 = Some doc ∧ trace r.2 = [] ∧ wf r.2 ∧
  (Forall (fun p => is_Some (dict_get "ip" p.2)) doc →
   r.1 = Ok tt ∧ used_ips r.2 = list_to_set (ips_of doc) ∧
   (NoDup (ips_of doc) → consistent r.2)) ∧
  (¬ Forall (fun p => is_Some (dict_get "ip" p.2)) doc →
   r.1 = Raise (KeyError "ip") ∧ used_ips r.2 = ∅).
Proof.
  intros Hnd r. subst r.
  destruct (__init___run doc Hnd) as [Hstore ->].
  destruct (decide (Forall (fun p => is_Some (dict_get "ip" p.2)) doc))
    as [Hall|Hnot].
  - rewrite mapM_ips_of by done. simpl.
    refine (conj _ (conj _ (conj _ (conj _ (conj _ _))))); try done.
    + by apply loaded_wf.
    + intros _. split_and!; try done. intros Hips.
      by apply loaded_consistent.
  - rewrite mapM_ips_None by done. simpl.
    refine (conj _ (conj _ (conj _ (conj _ (conj _ _))))); try done.
    by apply (loaded_wf doc ∅).
Qed.

(** X13. A restart loses nothing that was saved: for a consistent state
    whose users file holds the current store, constructing a manager from
    that file returns, with the same store, the same used set, the same
    file, and a consistent state. *)
Theorem restart_restores st :
  consistent st → users_file st = Some (store st) →
  let r := __init__ (boot (users_file st)) in
  r.1 = Ok tt ∧ store r.2 = store st ∧ used_ips r.2 = used_ips st ∧
  users_file r.2 = users_file st ∧ consistent r.2.
Proof.
  intros ([Hkeys Hlocs] & Hip & Hnd & Hset) Hfile r. subst r. rewrite Hfile.
  assert (NoDup (dict_keys (store st))) as Hk by by rewrite store_keys.
  destruct (__init___run (store st) Hk) as [Hstore ->].
  rewrite mapM_ips_of by done. simpl.
  assert (list_to_set (ips_of (store st)) = used_ips st) as Hused.
  { apply set_eq. intros x. by rewrite elem_of_list_to_set, <-Hset. }
  split_and!; try done.
  by apply loaded_consistent.
Qed.

(** * The request handlers *)

Lemma try_except_run {A} (m : M A) (h : exn → M A) st :
  try_except m h st =
  match m st with
  | (Ok a, st') => (Ok a, st')
  | (Raise e, st') => h e st'
  end.
Proof. reflexivity. Qed.

Lemma str_truthy_true (s : string) : s ≠ "" → str_truthy s = true.
Proof. by destruct s. Qed.

(** X14. The [require_api_key] decorator: with no API key configured, or
    with the [X-API-Key] header equal to the configured key, the handler
    runs as it is; with a key configured and the header absent, empty or
    different, the answer is 401 and the handler is not run, so the state,
    trace included, is untouched. *)
Theorem require_api_key_gate API_KEY header (f : M response) st :
  (API_KEY = "" → require_api_key API_KEY header f st = f st) ∧
  (API_KEY ≠ "" → header = Some API_KEY →
   require_api_key API_KEY header f st = f st) ∧
  (API_KEY ≠ "" → header ≠ Some API_KEY →
   require_api_key API_KEY header f st =
     (Ok (error_response "Invalid or missing API key" 401), st)).
Proof.
  unfold require_api_key. split_and!.
  - by intros ->.
  - intros Hkey ->. rewrite !str_truthy_true by done.
    by rewrite bool_decide_eq_true_2.
  - intros Hkey Hh. rewrite (str_truthy_true API_KEY) by done.
    destruct header as [k|]; [|done].
    rewrite bool_decide_eq_false_2 by congruence.
    by rewrite orb_true_r.
Qed.

Lemma user_view_run user st id name ip public_key client_config :
  dict_get "id" (deref (heap st) user) = Some id →
  dict_get "name" (deref (heap st) user) = Some name →
  dict_get "ip" (deref (heap st) user) = Some ip →
  dict_get "public_key" (deref (heap st) user) = Some public_key →
  dict_get "client_config" (deref (heap st) user) = Some client_config →
  user_view user st =
    (Ok (JObj [("id", JStr id); ("name", JStr name); ("ip", JStr ip);
               ("public_key", JStr public_key);
               ("client_config", JStr client_config)]), st).
Proof.
  intros H1 H2 H3 H4 H5. unfold user_view.
  rewrite bind_run, (getitem_Some _ _ _ _ H1).
  rewrite bind_run, (getitem_Some _ _ _ _ H2).
  rewrite bind_run, (getitem_Some _ _ _ _ H3).
  rewrite bind_run, (getitem_Some _ _ _ _ H4).
  rewrite bind_run, (getitem_Some _ _ _ _ H5). done.
Qed.

(** X15. [POST /api/users]. A body that is null, empty or without
    [user_id] gets 400 [user_id is required] and the manager is not called.
    Otherwise the response follows [create_user]: 201 with id, name, ip,
    public key and client configuration of the new record (and no
    [private_key] field) when it returns; 400 with the exception's message
    for a [ValueError], which is what a stored id gives, with the state
    untouched; 500 with the fixed text [Internal server error] for every
    other exception. The state is the one [create_user] leaves. *)
Theorem api_create_user_responses cfg env st data :
  ((data = None ∨ ∃ d, data = Some d ∧ dict_get "user_id" d = None) →
   api_create_user cfg env data st =
     (Ok (error_response "user_id is required" 400), st)) ∧
  (∀ d user_id, data = Some d → dict_get "user_id" d = Some user_id →
     let name := dict_get "name" d in
     let r := create_user cfg env user_id name st in
     let n := length (trace st) in
     match r.1 with
     | Ok user =>
         ∃ ip, (_get_next_ip cfg st).1 = Ok ip ∧
           api_create_user cfg env data st =
             (Ok (JObj [("success", JBool true);
                        ("user",
                         JObj [("id", JStr user_id);
                               ("name", JStr (py_or name user_id));
                               ("ip", JStr ip);
                               ("public_key",
                                JStr (strip (stdout (process env (n + 1)))));
                               ("client_config",
                                JStr (render cfg
                                        (strip (stdout (process env n)))
                                        ip))])],
                  201%Z), r.2)
     | Raise (ValueError msg) =>
         api_create_user cfg env data st = (Ok (error_response msg 400), r.2)
     | Raise _ =>
         api_create_user cfg env data st =
           (Ok (error_response "Internal server error" 500), r.2)
     end ∧
     (is_Some (dict_get user_id (users st)) →
      api_create_user cfg env data st =
        (Ok (error_response ("User " +:+ user_id +:+ " already exists") 400),
         st))).
Proof.
  split.
  - intros [->|(d & -> & Hd)]; [done|]. unfold api_create_user.
    rewrite try_except_run. destruct d as [|kv d]; [done|].
    by rewrite (proj2 (dict_in_false _ _) Hd).
  - intros d user_id -> Hd name r n.
    assert (api_create_user cfg env (Some d) st =
            try_except
              (user ← create_user cfg env user_id name;
               view ← user_view user;
               mret (JObj [("success", JBool true); ("user", view)], 201%Z))
              (fun e =>
                 match e with
                 | ValueError _ => mret (error_response (exn_str e) 400)
                 | _ => mret (error_response "Internal server error" 500)
                 end) st) as ->.
    { unfold api_create_user. destruct d as [|kv d]; [done|].
      rewrite (proj2 (dict_in_true _ _)) by (by rewrite Hd). simpl negb.
      cbv iota. by rewrite Hd. }
    rewrite try_except_run, bind_run. subst r.
    split.
    + destruct (create_user cfg env user_id name st) as [[user|e] st1] eqn:Hr;
        simpl.
      * destruct (create_user_Ok_inv cfg env st user_id name user st1 Hr)
          as (Habsent & Hgen & Hpub & [ip Hip] & Hadd & Hopen).
        destruct (create_user_ok_run cfg env st user_id name ip)
          as (Hr1 & Hheap & _); try done.
        rewrite Hr in Hr1, Hheap. simpl in Hr1, Hheap.
        assert (user = length (heap st)) as -> by congruence.
        exists ip. split; [done|].
        rewrite bind_run.
        erewrite user_view_run;
          [done|rewrite Hheap, deref_new; reflexivity..].
      * by destruct e.
    + intros Hin.
      destruct (create_user_cases cfg env st user_id name)
        as [[_ Hdup]|[(Habsent & _)|(Habsent & _)]];
        [|rewrite Habsent in Hin; by destruct Hin..].
      by rewrite Hdup.
Qed.

(** X16. [DELETE /api/users/<user_id>]. The response follows
    [delete_user]: 200 with the deletion message when it returns, 404 with
    the exception's message for a [ValueError], 500 with the fixed text for
    every other exception. An id that is not stored gets 404 [User ... not
    found] with the state untouched; a failing remove command gets 500. *)
Theorem api_delete_user_responses cfg env st user_id :
  let r := delete_user cfg env user_id st in
  match r.1 with
  | Ok _ =>
      api_delete_user cfg env user_id st =
        (Ok (JObj [("success", JBool true);
                   ("message",
                    JStr ("User " +:+ user_id +:+ " deleted successfully"))],
             200%Z), r.2)
  | Raise (ValueError msg) =>
      api_delete_user cfg env user_id st = (Ok (error_response msg 404), r.2)
  | Raise _ =>
      api_delete_user cfg env user_id st =
        (Ok (error_response "Internal server error" 500), r.2)
  end ∧
  (dict_get user_id (users st) = None →
   api_delete_user cfg env user_id st =
     (Ok (error_response ("User " +:+ user_id +:+ " not found") 404), st)) ∧
  (∀ user public_key,
     dict_get user_id (users st) = Some user →
     dict_get "public_key" (deref (heap st) user) = Some public_key →
     returncode (process env (length (trace st))) ≠ 0%Z →
     (api_delete_user cfg env user_id st).1 =
       Ok (error_response "Internal server error" 500)).
Proof.
  intros r. subst r. unfold api_delete_user.
  rewrite try_except_run, bind_run. split_and!.
  - destruct (delete_user cfg env user_id st) as [[b|e] st1]; simpl; [done|].
    by destruct e.
  - intros Habsent. unfold delete_user. rewrite bind_run. simpl.
    by rewrite Habsent.
  - intros user public_key Hget Hpk Hfail.
    unfold delete_user. rewrite bind_run. simpl. rewrite Hget.
    rewrite bind_run, (getitem_Some _ _ _ _ Hpk).
    unfold _remove_peer. rewrite !bind_run, _run_awg_command_run. simpl.
    by rewrite decide_False.
Qed.

(** X17. [GET /api/users/<user_id>]. An id that is not stored gets 404
    [User not found] with the state untouched. In a well-formed state, a
    stored record with id, name, private key, public key and ip gets 200
    with id, name, ip, public key and the client configuration rendered
    from the current parameters (no [private_key] field); the store, the
    used set, the users file and the trace are as before. *)
Theorem api_get_user_responses cfg st user_id :
  (dict_get user_id (users st) = None →
   api_get_user cfg user_id st =
     (Ok (error_response "User not found" 404), st)) ∧
  (∀ user id name private_key public_key ip,
     wf st →
     dict_get user_id (users st) = Some user →
     dict_get "id" (deref (heap st) user) = Some id →
     dict_get "name" (deref (heap st) user) = Some name →
     dict_get "private_key" (deref (heap st) user) = Some private_key →
     dict_get "public_key" (deref (heap st) user) = Some public_key →
     dict_get "ip" (deref (heap st) user) = Some ip →
     let r := api_get_user cfg user_id st in
     r.1 = Ok (JObj [("success", JBool true);
                     ("user",
                      JObj [("id", JStr id); ("name", JStr name);
                            ("ip", JStr ip);
                            ("public_key", JStr public_key);
                            ("client_config",
                             JStr (render cfg private_key ip))])],
               200%Z) ∧
     store r.2 = store st ∧ used_ips r.2 = used_ips st ∧
     users_file r.2 = users_file st ∧ trace r.2 = trace st).
Proof.
  split.
  - intros Habsent. unfold api_get_user. rewrite try_except_run, bind_run.
    destruct (get_user_cases cfg st user_id) as (_ & _ & _ & _ & Hc).
    destruct Hc as [[_ ->]|[(u & Hu & _)|(u & Hu & _)]]; [done|congruence..].
  - intros user id name private_key public_key ip Hwf Hget Hid Hname Hpk
      Hpub Hip r. subst r.
    unfold api_get_user. rewrite try_except_run, bind_run.
    destruct (get_user_cases cfg st user_id) as (Hus & Hu & Hf & Ht & Hc).
    destruct (get_user cfg user_id st) as [res st1] eqn:Hrun.
    simpl in Hus, Hu, Hf, Ht, Hc.
    destruct Hc as [[? _]|[(u & Hu1 & Hd & _)|(u & Hu1 & Hne & Hc)]];
      [congruence| |].
    { assert (u = user) as -> by congruence. by rewrite Hd in Hid. }
    assert (u = user) as -> by congruence.
    destruct Hc as [(e & _ & [Hn|Hn] & _)|(pk & ip' & Hpk' & Hip' & Hr & Hh)];
      [congruence..|].
    assert (pk = private_key) as -> by congruence.
    assert (ip' = ip) as -> by congruence.
    rewrite Hr. rewrite bind_run. simpl.
    assert (deref (heap st1) (length (heap st)) =
            dict_set "client_config" (render cfg private_key ip)
              (deref (heap st) user)) as Hcopy
      by (by rewrite Hh, deref_new).
    rewrite Hcopy.
    destruct (dict_set "client_config" (render cfg private_key ip)
                (deref (heap st) user)) as [|kv d'] eqn:Hset.
    { exfalso. pose proof (dict_get_set_eq (deref (heap st) user)
                             "client_config" (render cfg private_key ip)) as E.
      by rewrite Hset in E. }
    rewrite bind_run.
    rewrite (user_view_run (length (heap st)) st1 id name ip public_key
               (render cfg private_key ip)).
    + simpl. split_and!; try done. apply store_grow; [done..|]. by eexists.
    + by rewrite Hcopy, <-Hset, dict_get_set_ne.
    + by rewrite Hcopy, <-Hset, dict_get_set_ne.
    + by rewrite Hcopy, <-Hset, dict_get_set_ne.
    + by rewrite Hcopy, <-Hset, dict_get_set_ne.
    + by rewrite Hcopy, <-Hset, dict_get_set_eq.
Qed.

Lemma bind_Ok_inv {A B} (m : M A) (f : A → M B) st b st' :
  (m ≫= f) st = (Ok b, st') →
  ∃ a st1, m st = (Ok a, st1) ∧ f a st1 = (Ok b, st').
Proof.
  rewrite bind_run. destruct (m st) as [[a|e] st1]; [|done].
  intros Hf. by exists a, st1.
Qed.

Lemma try_except_total {A} (m : M A) (h : exn → M A) st (P : A → Prop) :
  (∀ a st', m st = (Ok a, st') → P a) →
  (∀ e st', ∃ a, h e st' = (Ok a, st') ∧ P a) →
  ∃ a st', try_except m h st = (Ok a, st') ∧ P a.
Proof.
  intros Hm Hh. rewrite try_except_run.
  destruct (m st) as [[a|e] st1] eqn:Hrun.
  - exists a, st1. split; [done|]. by eapply Hm.
  - destruct (Hh e st1) as (a & -> & Ha). by exists a, st1.
Qed.

Local Ltac code_in := simpl; rewrite !elem_of_cons; tauto.

(** X18. No handler raises: from any state each one returns a response,
    with a status code among 201, 400, 500 for the creation, 200, 404, 500
    for get and delete, 200, 500 for the listing; the status endpoint always
    answers 200 with the manager's status and only runs [awg show]. *)
Theorem endpoints_always_respond cfg env st :
  (∀ data, ∃ resp st',
     api_create_user cfg env data st = (Ok resp, st') ∧
     resp.2 ∈ [201; 400; 500]%Z) ∧
  (∀ user_id, ∃ resp st',
     api_get_user cfg user_id st = (Ok resp, st') ∧
     resp.2 ∈ [200; 404; 500]%Z) ∧
  (∀ user_id, ∃ resp st',
     api_delete_user cfg env user_id st = (Ok resp, st') ∧
     resp.2 ∈ [200; 404; 500]%Z) ∧
  (∃ resp st',
     api_list_users st = (Ok resp, st') ∧ resp.2 ∈ [200; 500]%Z) ∧
  (∃ s, api_server_status cfg env st =
          (Ok (JObj [("success", JBool true); ("status", status_json s)],
               200%Z),
           with_trace
             (trace st ++ [Run ["awg"; "show"; interface cfg] None]) st)).
Proof.
  split_and!.
  - intros data. apply try_except_total.
    + intros [body code] st'. simpl.
      destruct data as [[|kv d]|]; try (intros [= <- <-]; code_in).
      destruct (negb (dict_in "user_id" (kv :: d)));
        [intros [= <- <-]; code_in|].
      destruct (dict_get "user_id" (kv :: d)); [|done].
      intros (user & st1 & _ & (view & st2 & _ & [= <- <-])%bind_Ok_inv)
        %bind_Ok_inv.
      code_in.
    + intros e st'. destruct e; eexists; (split; [done|]); simpl; code_in.
  - intros user_id. apply try_except_total.
    + intros [body code] st'. simpl.
      intros ([user|] & st1 & _ & Hrest)%bind_Ok_inv;
        [|injection Hrest as <- <-; code_in].
      apply bind_Ok_inv in Hrest as (d & st2 & _ & Hrest).
      destruct d; [injection Hrest as <- <-; code_in|].
      apply bind_Ok_inv in Hrest as (view & st3 & _ & [= <- <-]).
      code_in.
    + intros e st'. eexists; (split; [done|]); simpl; code_in.
  - intros user_id. apply try_except_total.
    + intros [body code] st'. simpl.
      intros (b & st1 & _ & [= <- <-])%bind_Ok_inv. code_in.
    + intros e st'. destruct e; eexists; (split; [done|]); simpl; code_in.
  - apply try_except_total.
    + intros [body code] st'. simpl.
      intros (us & st1 & _ & [= <- <-])%bind_Ok_inv. code_in.
    + intros e st'. eexists; (split; [done|]); simpl; code_in.
  - destruct (get_server_status_Ok cfg env st) as [s Hs]. exists s.
    unfold api_server_status. by rewrite try_except_run, bind_run, Hs.
Qed.

(** X19. [GET /api/users]. When every stored record has a name, an ip
    and a public key, the answer is 200 with one entry per stored user, in
    order, and [total] the number of stored users; otherwise it is 500 with
    the fixed text. The state is untouched either way. *)
Theorem api_list_users_responses st :
  (Forall (fun p => is_Some (list_entry p)) (store st) →
   ∃ entries,
     Forall2 (fun p e => list_entry p = Some e) (store st) entries ∧
     api_list_users st =
       (Ok (JObj [("success", JBool true);
                  ("users", JList (record_json <$> entries));
                  ("total", JInt (Z.of_nat (length (users st))))],
            200%Z), st)) ∧
  (¬ Forall (fun p => is_Some (list_entry p)) (store st) →
   api_list_users st =
     (Ok (error_response "Internal server error" 500), st)).
Proof.
  assert (list_users st = list_users_loop (users st) st) as Hrun
    by (unfold list_users; by rewrite bind_run).
  pose proof (list_users_loop_run (users st) st) as Hloop.
  change (store_of (heap st) (users st)) with (store st) in Hloop.
  unfold api_list_users. rewrite try_except_run, bind_run, Hrun. split.
  - intros Hall.
    destruct (mapM list_entry (store st)) as [l|] eqn:Hm.
    + rewrite Hloop. simpl. apply mapM_Some in Hm. exists l.
      split; [done|]. apply Forall2_length in Hm.
      rewrite <-Hm. unfold store, store_of. by rewrite length_fmap.
    + exfalso. apply mapM_None in Hm. apply Exists_exists in Hm
        as (p & Hp & Hnone). rewrite Forall_forall in Hall.
      specialize (Hall p Hp). rewrite Hnone in Hall. by destruct Hall.
  - intros Hnot.
    destruct (mapM list_entry (store st)) as [l|] eqn:Hm.
    + exfalso. apply Hnot. apply mapM_Some in Hm. clear -Hm.
      induction Hm; constructor; [by eexists|done].
    + by destruct Hloop as (k & _ & ->).
Qed.

(** * Instances of the further properties *)

Local Ltac by_computation := apply (bool_decide_unpack _); vm_compute; exact I.

Lemma create_user_success_witness :
  let r := create_user default_config all_succeed "a" None fresh in
  r.1 = Ok 0 ∧ users r.2 = [("a", 0)] ∧
  used_ips r.2 = {["10.8.0.2"]} ∪ ∅.
Proof.
  destruct (create_user_success default_config all_succeed fresh "a" None
              "10.8.0.2") as (Hr & _ & Hus & Hu & _);
    [split; by_computation | reflexivity | reflexivity | reflexivity
    | vm_compute; reflexivity | reflexivity | reflexivity |].
  cbv zeta. split_and!; [exact Hr | exact Hus | exact Hu].
Defined.

Lemma delete_user_success_witness :
  let r := delete_user default_config all_succeed "a" with_a in
  r.1 = Ok true ∧ dict_get "a" (store r.2) = None ∧
  users_file r.2 = Some (store r.2).
Proof.
  destruct (delete_user_success default_config all_succeed with_a "a" 0
              "key1" "10.8.0.2") as (Hr & Hgone & _ & _ & Hfile & _);
    [split; by_computation | vm_compute; reflexivity
    | vm_compute; reflexivity | vm_compute; reflexivity
    | vm_compute; reflexivity | vm_compute; reflexivity |].
  cbv zeta. split_and!; [exact Hr | exact Hgone | exact Hfile].
Defined.

Lemma create_then_delete_restores_witness :
  let r := delete_user default_config all_succeed "a" with_a in
  users r.2 = users fresh ∧ used_ips r.2 = used_ips fresh ∧
  store r.2 = store fresh.
Proof.
  apply (create_then_delete_restores default_config all_succeed fresh "a"
           None 0 with_a);
    [split; by_computation | vm_compute; reflexivity
    | vm_compute; reflexivity].
Defined.

Lemma stored_record_kept_witness :
  dict_get "a"
    (store (run_ops default_config all_succeed
              [CreateUser "b" None; DeleteUser "b"] with_a)) =
  Some (deref (heap with_a) 0).
Proof.
  apply (stored_record_kept default_config all_succeed
           [CreateUser "b" None; DeleteUser "b"] with_a "a");
    [split; by_computation | vm_compute; reflexivity |].
  rewrite !not_elem_of_cons. split_and!; [discriminate | intros [=] |].
  apply not_elem_of_nil.
Defined.

Lemma list_users_entries_witness :
  ∃ l, list_users with_a_b = (Ok l, with_a_b) ∧ length l = 2 ∧
       Forall (fun e => dict_keys e = ["id"; "name"; "ip"; "public_key"]) l.
Proof.
  destruct (list_users_entries with_a_b) as (_ & Hlen & _).
  eexists. split; [vm_compute; reflexivity|].
  apply Hlen. vm_compute. reflexivity.
Defined.

Lemma get_server_status_never_raises_witness :
  (get_server_status default_config (fails_at 4) with_a).1 =
  Ok (StatusError "awg0"
        "awg command failed: Unable to modify interface: No such device").
Proof.
  destruct (get_server_status_never_raises default_config (fails_at 4) with_a)
    as (_ & _ & Hfail).
  apply Hfail. vm_compute. discriminate.
Defined.

Lemma total_users_is_used_count_witness :
  let st := run_ops default_config all_succeed
              [CreateUser "a" None; DeleteUser "a"; CreateUser "b" None]
              fresh in
  length (users st) = size (used_ips st).
Proof.
  destruct (total_users_is_used_count default_config all_succeed
              [CreateUser "a" None; DeleteUser "a"; CreateUser "b" None])
    as [_ Hgen].
  destruct (Hgen fresh) as [Hlen _]; [|exact Hlen].
  unfold consistent, ip_invariant, wf. cbn.
  split_and!; try by constructor.
  intros ip. split; [by intros ?%elem_of_nil | by intros ?%elem_of_empty].
Defined.

Lemma used_ips_are_hosts_from_start_witness :
  ∃ ip, "10.8.0.2" = IPv4Address_str ip ∧
        ip ∈ hosts (network default_config) ∧
        (VPN_NETWORK_START default_config ≤ ip)%Z.
Proof.
  destruct (used_ips_are_hosts_from_start default_config all_succeed
              [CreateUser "a" None] "10.8.0.2")
    as (ip & Hs & Hin & Hstart & _); [by_computation|].
  exists ip. split_and!; [exact Hs | exact Hin | exact Hstart].
Defined.


Lemma create_user_save_fails_witness :
  let r := create_user default_config (write_fails_at 3) "a" None fresh in
  r.1 = Raise (OSError "Permission denied") ∧
  dict_get "a" (users r.2) = Some 0 ∧ "10.8.0.2" ∈ used_ips r.2 ∧
  users_file r.2 = None.
Proof.
  destruct (create_user_save_fails default_config (write_fails_at 3) fresh
              "a" None "10.8.0.2" "Permission denied")
    as (Hr & Hus & _ & Hu & Hf & _);
    [reflexivity | reflexivity | reflexivity | vm_compute; reflexivity
    | reflexivity | reflexivity |].
  cbv zeta. split_and!; [exact Hr | exact Hus | exact Hu | exact Hf].
Defined.

Lemma get_user_after_create_witness :
  ∃ copy, (get_user default_config "a" with_a).1 = Ok (Some copy) ∧
          copy ≠ 0 ∧
          deref (heap (get_user default_config "a" with_a).2) copy =
            deref (heap with_a) 0.
Proof.
  destruct (get_user_after_create default_config all_succeed fresh "a" None
              0 with_a) as (copy & Hr & Hne & Hsame & _);
    [split; by_computation | vm_compute; reflexivity |].
  exists copy. split_and!; [exact Hr | exact Hne | exact Hsame].
Defined.

Lemma init_from_users_file_witness :
  let r := __init__ (boot (Some (store with_a_b))) in
  r.1 = Ok tt ∧ store r.2 = store with_a_b ∧ consistent r.2.
Proof.
  destruct (init_from_users_file (store with_a_b))
    as (Hstore & _ & _ & _ & Hok & _); [by_computation|].
  destruct Hok as (Hr & _ & Hcons); [by_computation|].
  cbv zeta. split_and!; [exact Hr | exact Hstore |].
  apply Hcons. by_computation.
Defined.

Lemma restart_restores_witness :
  let r := __init__ (boot (users_file with_b)) in
  r.1 = Ok tt ∧ store r.2 = store with_b ∧ used_ips r.2 = used_ips with_b.
Proof.
  destruct (restart_restores with_b) as (Hr & Hstore & Hused & _).
  - unfold consistent, ip_invariant, wf.
    split_and!; [by_computation | by_computation | by_computation
                | by_computation |].
    intros ip.
    assert (used_ips with_b = list_to_set (store_ips with_b)) as ->
      by (vm_compute; reflexivity).
    symmetry. apply elem_of_list_to_set.
  - vm_compute. reflexivity.
  - cbv zeta. split_and!; [exact Hr | exact Hstore | exact Hused].
Defined.

Lemma require_api_key_gate_witness :
  require_api_key "secret" (Some "guess") health fresh =
    (Ok (error_response "Invalid or missing API key" 401), fresh) ∧
  require_api_key "secret" (Some "secret") health fresh = health fresh.
Proof.
  destruct (require_api_key_gate "secret" (Some "guess") health fresh)
    as (_ & _ & Hbad).
  destruct (require_api_key_gate "secret" (Some "secret") health fresh)
    as (_ & Hgood & _).
  split; [apply Hbad; discriminate | apply Hgood; [discriminate|reflexivity]].
Defined.

Lemma api_create_user_responses_witness :
  api_create_user default_config all_succeed (Some [("name", "Ann")]) with_a =
    (Ok (error_response "user_id is required" 400), with_a) ∧
  api_create_user default_config all_succeed (Some [("user_id", "a")]) with_a =
    (Ok (error_response "User a already exists" 400), with_a).
Proof.
  destruct (api_create_user_responses default_config all_succeed with_a
              (Some [("name", "Ann")])) as [Hmissing _].
  destruct (api_create_user_responses default_config all_succeed with_a
              (Some [("user_id", "a")])) as [_ Hcall].
  destruct (Hcall [("user_id", "a")] "a") as [_ Hdup];
    [reflexivity | reflexivity |].
  split.
  - apply Hmissing. right. eexists. split; reflexivity.
  - apply Hdup. vm_compute. by eexists.
Defined.

Lemma api_delete_user_responses_witness :
  api_delete_user default_config all_succeed "nobody" with_a =
    (Ok (error_response "User nobody not found" 404), with_a) ∧
  (api_delete_user default_config (fails_at 4) "a" with_a).1 =
    Ok (error_response "Internal server error" 500).
Proof.
  destruct (api_delete_user_responses default_config all_succeed with_a
              "nobody") as (_ & Habsent & _).
  destruct (api_delete_user_responses default_config (fails_at 4) with_a "a")
    as (_ & _ & Hfail).
  split.
  - apply Habsent. vm_compute. reflexivity.
  - apply (Hfail 0 "key1");
      [vm_compute; reflexivity | vm_compute; reflexivity
      | vm_compute; discriminate].
Defined.

Lemma api_get_user_responses_witness :
  api_get_user default_config "nobody" with_a =
    (Ok (error_response "User not found" 404), with_a) ∧
  (api_get_user default_config "a" with_a).1 =
    Ok (JObj [("success", JBool true);
              ("user",
               JObj [("id", JStr "a"); ("name", JStr "a");
                     ("ip", JStr "10.8.0.2"); ("public_key", JStr "key1");
                     ("client_config",
                      JStr (render default_config "key0" "10.8.0.2"))])],
        200%Z).
Proof.
  destruct (api_get_user_responses default_config with_a "nobody")
    as [Habsent _].
  destruct (api_get_user_responses default_config with_a "a") as [_ Hfound].
  destruct (Hfound 0 "a" "a" "key0" "key1" "10.8.0.2") as [Hr _];
    [split; by_computation | vm_compute; reflexivity..|].
  split; [apply Habsent; vm_compute; reflexivity | exact Hr].
Defined.

Lemma api_list_users_responses_witness :
  ∃ entries,
    api_list_users with_a_b =
      (Ok (JObj [("success", JBool true);
                 ("users", JList (record_json <$> entries));
                 ("total", JInt 2)], 200%Z), with_a_b).
Proof.
  destruct (api_list_users_responses with_a_b) as [Hok _].
  destruct Hok as (entries & _ & Hrun); [by_computation|].
  exists entries. exact Hrun.
Defined.
